(** * repo_slice.py: search a repository and slice a window of lines around
    every match.

    A shallow embedding of [src/repo_slice.py].  Python text is a [string]
    whose characters are code points below 256; Python integers are [Z];
    an exception is a value of [exn] carried by [result]; printing and
    spawning the search process are recorded in an event trace ([io]). *)

From Stdlib Require Import String Ascii List ZArith Lia Bool DecimalString DecimalZ.
Import ListNotations.

Local Open Scope string_scope.
Local Open Scope list_scope.
Local Open Scope Z_scope.

(* ================================================================== *)
(** ** Python built-ins on text *)
(* ================================================================== *)

Module Py.

(** [str.isspace] on one character: the whitespace code points below 256
    are U+0009..U+000D, U+001C..U+001F, U+0020, U+0085 and U+00A0. *)
Definition is_space (c : ascii) : bool :=
  let n := nat_of_ascii c in
  (((9 <=? n) && (n <=? 13)) || ((28 <=? n) && (n <=? 32))
   || (n =? 133) || (n =? 160))%nat.

(** The characters [str.splitlines] breaks a line at: LF, VT, FF, CR, FS,
    GS, RS and NEL (CR LF counts as one break). *)
Definition is_linebreak (c : ascii) : bool :=
  let n := nat_of_ascii c in
  (((10 <=? n) && (n <=? 13)) || ((28 <=? n) && (n <=? 30)) || (n =? 133))%nat.

Definition CR : ascii := ascii_of_nat 13.
Definition LF : ascii := ascii_of_nat 10.

(** The one-character text [chr(10)], the separator of [slice_window]. *)
Definition nl : string := String LF EmptyString.

Fixpoint lstrip (s : string) : string :=
  match s with
  | EmptyString => EmptyString
  | String c rest => if is_space c then lstrip rest else s
  end.

Fixpoint rstrip (s : string) : string :=
  match s with
  | EmptyString => EmptyString
  | String c rest =>
      match rstrip rest with
      | EmptyString => if is_space c then EmptyString else String c EmptyString
      | r => String c r
      end
  end.

(** [s.strip()] *)
Definition strip (s : string) : string := rstrip (lstrip s).

(** [s.strip() == ""] as the source tests it. *)
Definition strips_to_empty (s : string) : bool := (strip s =? "")%string.

(** A text that consists of whitespace only (the empty text included). *)
Definition is_blank (s : string) : bool :=
  forallb is_space (list_ascii_of_string s).

(** [s.splitlines()]: [cur] is the line being read.  A line break closes
    the current line; what follows the last break is a line only when it
    is not empty. *)
Fixpoint splitlines_from (cur s : string) : list string :=
  match s with
  | EmptyString => if (cur =? "")%string then [] else [cur]
  | String c rest =>
      if is_linebreak c then
        cur :: match rest with
               | String d rest' =>
                   if Ascii.eqb c CR && Ascii.eqb d LF
                   then splitlines_from "" rest'
                   else splitlines_from "" rest
               | EmptyString => splitlines_from "" rest
               end
      else splitlines_from (cur ++ String c "") rest
  end.

Definition splitlines (s : string) : list string := splitlines_from "" s.

(** [sep.join(parts)] *)
Definition join (sep : string) (parts : list string) : string :=
  String.concat sep parts.

(** [str(n)] for an [int]. *)
Definition str_of_int (n : Z) : string := NilZero.string_of_int (Z.to_int n).

(** [len(xs)] *)
Definition len {A} (xs : list A) : Z := Z.of_nat (length xs).

(** [xs[i:j]] for integers [i] and [j]: a negative bound counts from the
    end, and both are clamped to [0..len(xs)]. *)
Definition slice_bound {A} (xs : list A) (i : Z) : Z :=
  if i <? 0 then Z.max (i + len xs) 0 else Z.min i (len xs).

Definition slice {A} (xs : list A) (i j : Z) : list A :=
  let lo := slice_bound xs i in
  let hi := slice_bound xs j in
  firstn (Z.to_nat (hi - lo)) (skipn (Z.to_nat lo) xs).

(** What [isinstance(x, int)] accepts: an [int], or a [bool] (in Python
    [bool] is a subclass of [int], [True == 1] and [False == 0]). *)
Inductive intlike : Type :=
  | Int (z : Z)
  | Bool (b : bool).

Definition int_val (n : intlike) : Z :=
  match n with
  | Int z => z
  | Bool true => 1
  | Bool false => 0
  end.

(** [str(n)], as an f-string formats it. *)
Definition str_of_intlike (n : intlike) : string :=
  match n with
  | Int z => str_of_int z
  | Bool true => "True"
  | Bool false => "False"
  end.

#[local] Set Warnings "-register-all".

(** A value [json.loads] can return.  A float is kept by its truth value
    alone ([x != 0.0]), all the decoder ever observes of one.  A [dict] is
    an association list read by its first binding for a key. *)
Inductive pyval : Type :=
  | PNone
  | PBool (b : bool)
  | PInt (z : Z)
  | PFloat (nonzero : bool)
  | PStr (s : string)
  | PList (xs : list pyval)
  | PDict (d : list (string * pyval)).

(** [bool(v)] *)
Definition truthy (v : pyval) : bool :=
  match v with
  | PNone => false
  | PBool b => b
  | PInt z => negb (z =? 0)
  | PFloat nz => nz
  | PStr s => negb (s =? "")%string
  | PList xs => match xs with [] => false | _ => true end
  | PDict d => match d with [] => false | _ => true end
  end.

(** [d.get(k)] on a [dict]: [None] when the key is absent. *)
Fixpoint dict_get (d : list (string * pyval)) (k : string) : pyval :=
  match d with
  | [] => PNone
  | (k', v) :: rest => if (k' =? k)%string then v else dict_get rest k
  end.

(** [a or b] *)
Definition py_or (a b : pyval) : pyval := if truthy a then a else b.

(** [v != s] for a [str] literal [s]. *)
Definition ne_str (v : pyval) (s : string) : bool :=
  match v with
  | PStr t => negb (t =? s)%string
  | _ => true
  end.

(** [isinstance(v, int)], with the integer it then is. *)
Definition as_int (v : pyval) : option intlike :=
  match v with
  | PInt z => Some (Int z)
  | PBool b => Some (Bool b)
  | _ => None
  end.

End Py.
Import Py.

(* ================================================================== *)
(** ** Exceptions, results and the trace of effects *)
(* ================================================================== *)

(** The exceptions the program can end with.  None of them is caught
    anywhere in [repo_slice.py].  The text an error of the operating
    system carries is chosen by whoever raises it: the message of line 34
    for the program's own [FileNotFoundError], the file name the error
    names for the [IsADirectoryError] of reading a directory, and what
    the world says for the errors of launching a process or of reading a
    file that cannot be read. *)
Inductive exn : Type :=
  | FileNotFoundError (msg : string)
  | IsADirectoryError (filename : string)
  | PermissionError (msg : string)
  | JSONDecodeError
  | AttributeError
  | TypeError
  | ValueError
  | RecursionError
  | OSError (msg : string).

Inductive result (A : Type) : Type :=
  | Ok (a : A)
  | Raise (e : exn).
Arguments Ok {A} a.
Arguments Raise {A} e.

Definition rbind {A B} (r : result A) (k : A -> result B) : result B :=
  match r with
  | Ok a => k a
  | Raise e => Raise e
  end.

(** What the program does to the outside world, in order. *)
Inductive event : Type :=
  | Printed (text : string)          (* print(text) *)
  | Spawned (cmd : list string).     (* subprocess.run(cmd, ...) *)

(** A computation: the events it performed and how it ended.  An
    exception keeps the events performed before it. *)
Definition io (A : Type) : Type := list event * result A.

Definition ret {A} (a : A) : io A := ([], Ok a).
Definition raise {A} (e : exn) : io A := ([], Raise e).
Definition lift {A} (r : result A) : io A := ([], r).
Definition print (text : string) : io unit := ([Printed text], Ok tt).

Definition bind {A B} (m : io A) (k : A -> io B) : io B :=
  match m with
  | (evs, Ok a) => let (evs', r) := k a in (evs ++ evs', r)
  | (evs, Raise e) => (evs, Raise e)
  end.

Notation "x <- m ;; k" := (bind m (fun x => k))
  (at level 61, m at next level, right associativity).
Notation "m ;;; k" := (bind m (fun _ => k))
  (at level 61, right associativity).
Notation "x <~ r ;; k" := (rbind r (fun x => k))
  (at level 61, r at next level, right associativity).

(* ================================================================== *)
(** ** The library and the world the program runs in *)
(* ================================================================== *)

(** The ways [json.loads] fails: the text is not JSON
    ([json.JSONDecodeError]); it holds an integer literal with more
    digits than [int] converts ([ValueError]); it is nested deeper than
    the interpreter recurses ([RecursionError]). *)
Inductive json_failure : Type :=
  | NotJSON
  | IntegerTooLong
  | TooDeep.

(** The exception [json.loads] raises for a failure. *)
Definition json_exn (f : json_failure) : exn :=
  match f with
  | NotJSON => JSONDecodeError
  | IntegerTooLong => ValueError
  | TooDeep => RecursionError
  end.

(** What [json.loads] does with a text. *)
Inductive loaded : Type :=
  | Loaded (v : pyval)
  | Failed (f : json_failure).

(** The parts of Python's library the program calls and this file does
    not define: [pathlib.Path], [json.loads] and [int(str)].  [None]
    stands for [int] raising [ValueError]. *)
Class PyLib : Type := {
  Path : Type;
  Path_of_str : string -> Path;          (* Path(s) *)
  str_of_Path : Path -> string;          (* str(p) *)
  Path_resolve : Path -> Path;           (* p.resolve() *)
  json_loads : string -> loaded;         (* json.loads(s) *)
  int_of_str : string -> option Z        (* int(s) *)
}.

(** What a path names on disk. *)
Inductive node : Type :=
  | File (text : string)   (* a regular file, with its decoded text *)
  | Dir                    (* a directory *)
  | Unreadable (e : exn).  (* a file that exists and whose read raises [e],
                              a [PermissionError] for one *)

(** The [CompletedProcess] of [subprocess.run]. *)
Record CompletedProcess : Type := {
  stdout : option string;
  stderr : option string
}.

(** The file system, and the capability of running a command: what the
    search process answers, or the exception its launch raises. *)
Record World `{PyLib} : Type := {
  fs : Path -> option node;
  runner : list string -> result CompletedProcess
}.

Section Program.
Context `{py : PyLib}.

(** [p.exists()] *)
Definition path_exists (w : World) (p : Path) : bool :=
  match fs w p with
  | Some _ => true
  | None => false
  end.

(** [p.read_text(encoding="utf-8", errors="replace")].  The two errors
    of the operating system spelled out here carry the file name the
    error names ([e.filename]); the error of a file that cannot be read
    is the one the world gives. *)
Definition read_text (w : World) (p : Path) : result string :=
  match fs w p with
  | Some (File text) => Ok text
  | Some Dir => Raise (IsADirectoryError (str_of_Path p))
  | Some (Unreadable e) => Raise e
  | None => Raise (FileNotFoundError (str_of_Path p))
  end.

(** [subprocess.run(cmd, capture_output=True, text=True, ...)] *)
Definition subprocess_run (w : World) (cmd : list string) : io CompletedProcess :=
  ([Spawned cmd], runner w cmd).

(** [x or ""] for an optional text. *)
Definition or_empty (x : option string) : string :=
  match x with
  | Some s => s
  | None => ""
  end.

(** [v.get(k)]: only a [dict] has the method. *)
Definition get (v : pyval) (k : string) : result pyval :=
  match v with
  | PDict d => Ok (dict_get d k)
  | _ => Raise AttributeError
  end.

(** [Path(v)]: a [TypeError] unless [v] is a [str]. *)
Definition make_path (v : pyval) : result Path :=
  match v with
  | PStr s => Ok (Path_of_str s)
  | _ => Raise TypeError
  end.

(** [int(s)] *)
Definition parse_int (s : string) : result Z :=
  match int_of_str s with
  | Some z => Ok z
  | None => Raise ValueError
  end.

(** [class Hit] *)
Record Hit : Type := mkHit {
  file : Path;
  line : intlike;
  window : string
}.

Definition DEFAULT_EXCLUDE_GLOBS : list string :=
  [ "!**/.git/**"; "!**/node_modules/**"; "!**/dist/**"; "!**/build/**";
    "!**/.next/**"; "!**/out/**"; "!**/coverage/**"; "!**/.turbo/**";
    "!**/.cache/**"; "!**/.venv/**"; "!**/venv/**"; "!**/__pycache__/**" ].

(** A decoded match: [(Path(file_text), line_no)]. *)
Definition rg_match : Type := (Path * intlike)%type.

(** One turn of the loop of [run_rg] (lines 63-80), up to the [append]:
    [Ok None] is [continue], [Ok (Some m)] the pair to append. *)
Definition decode_line (ln : string) : result (option rg_match) :=
  if strips_to_empty ln then Ok None else
  match json_loads ln with
  | Failed f => Raise (json_exn f)
  | Loaded obj =>
      ty <~ get obj "type" ;;
      if ne_str ty "match" then Ok None else
      d <~ get obj "data" ;;
      let data := py_or d (PDict []) in
      p <~ get data "path" ;;
      let path_obj := py_or p (PDict []) in
      file_text <~ get path_obj "text" ;;
      match file_text with
      | PNone => Ok None
      | _ =>
          line_no <~ get data "line_number" ;;
          match as_int line_no with
          | None => Ok None
          | Some n =>
              file_path <~ make_path file_text ;;
              Ok (Some (file_path, n))
          end
      end
  end.

(** The loop of [run_rg] (lines 62-84) over [stdout.splitlines()], with
    the list [hits] it appends to. *)
Fixpoint decode_lines (max_hits : Z) (lines : list string) (hits : list rg_match)
  : result (list rg_match) :=
  match lines with
  | [] => Ok hits
  | ln :: rest =>
      match decode_line ln with
      | Raise e => Raise e
      | Ok None => decode_lines max_hits rest hits
      | Ok (Some m) =>
          let hits' := hits ++ [m] in
          if len hits' >=? max_hits then Ok hits'
          else decode_lines max_hits rest hits'
      end
  end.

(** The command line [run_rg] builds (lines 39-44). *)
Definition rg_command (repo_root : Path) (pattern : string)
    (exclude_globs : list string) : list string :=
  let cmd := ["rg"; "--json"; "--smart-case"; "--text"] in
  let cmd := fold_left (fun cmd g => cmd ++ ["--glob"; g]) exclude_globs cmd in
  cmd ++ [pattern; str_of_Path repo_root].

Definition run_rg (w : World) (repo_root : Path) (pattern : string)
    (max_hits : Z) (exclude_globs : list string) : io (list rg_match) :=
  if negb (path_exists w repo_root) then
    raise (FileNotFoundError ("Repo root not found: " ++ str_of_Path repo_root))
  else if strips_to_empty pattern then ret []
  else
    proc <- subprocess_run w (rg_command repo_root pattern exclude_globs) ;;
    let out := or_empty (stdout proc) in
    if strips_to_empty out then
      let err := strip (or_empty (stderr proc)) in
      (if negb (err =? "")%string then print err else ret tt) ;;;
      ret []
    else lift (decode_lines max_hits (splitlines out) []).

(** The header of a window (line 103):
    [f"{file_path}:{center_line} (lines {start + 1}-{end})"]. *)
Definition window_header (file_path : Path) (center_line : intlike)
    (start end_ : Z) : string :=
  (str_of_Path file_path ++ ":" ++ str_of_intlike center_line ++ " (lines "
     ++ str_of_int (start + 1) ++ "-" ++ str_of_int end_ ++ ")")%string.

Definition slice_window (w : World) (file_path : Path) (center_line : intlike)
    (radius : Z) : result string :=
  if negb (path_exists w file_path) then Ok "" else
  if int_val center_line <=? 0 then Ok "" else
  text <~ read_text w file_path ;;
  let lines := splitlines text in
  if len lines =? 0 then Ok "" else
  let idx := Z.max (int_val center_line - 1) 0 in
  let start := Z.max (idx - radius) 0 in
  let end_ := Z.min (idx + radius + 1) (len lines) in
  let header := window_header file_path center_line start end_ in
  let body := join nl (slice lines start end_) in
  Ok (header ++ nl ++ body)%string.

(** The loop of [search_and_slice] (lines 113-118), with the list
    [results] it appends to. *)
Fixpoint collect_hits (w : World) (radius : Z) (matches : list rg_match)
    (results : list Hit) : result (list Hit) :=
  match matches with
  | [] => Ok results
  | (file_path, line_no) :: rest =>
      window <~ slice_window w file_path line_no radius ;;
      if strips_to_empty window then collect_hits w radius rest results
      else collect_hits w radius rest (results ++ [mkHit file_path line_no window])
  end.

Definition search_and_slice (w : World) (repo_root : Path) (pattern : string)
    (max_hits radius : Z) : io (list Hit) :=
  matches <- run_rg w repo_root pattern max_hits DEFAULT_EXCLUDE_GLOBS ;;
  if len matches =? 0 then ret []
  else lift (collect_hits w radius matches []).

Definition dquote : string := String (ascii_of_nat 34) EmptyString.

Definition usage_line : string :=
  "Usage: python repo_slice.py <repo_path> <pattern> [max_hits] [radius]".

Definition example_line : string :=
  ("Example: python repo_slice.py . " ++ dquote ++ "SimPilot" ++ dquote ++ " 5 40")%string.

(** The banner [f"\n===== HIT {i}/{len(hits)} ====="]. *)
Definition banner (i total : Z) : string :=
  (nl ++ "===== HIT " ++ str_of_int i ++ "/" ++ str_of_int total ++ " =====")%string.

(** The loop of [main] (lines 139-141); [i] is the ordinal of the first
    hit of [hits] and [total] is [len] of the whole list. *)
Fixpoint print_hits (i total : Z) (hits : list Hit) : io unit :=
  match hits with
  | [] => ret tt
  | hit :: rest =>
      print (banner i total) ;;;
      print (window hit) ;;;
      print_hits (i + 1) total rest
  end.

(** The end of [main] (lines 135-143), once it has the hits. *)
Definition report (hits : list Hit) : io Z :=
  if len hits =? 0 then
    print "No matches." ;;;
    ret 0
  else
    print_hits 1 (len hits) hits ;;;
    ret 0.

(** The optional integer argument at position [i] of [sys.argv]
    (lines 131-132): [int(sys.argv[i]) if len(sys.argv) >= i + 1 else default]. *)
Definition int_arg (argv : list string) (i : nat) (default : Z) : result Z :=
  if len argv >=? Z.of_nat i + 1 then parse_int (nth i argv "") else Ok default.

(** [main], with [sys.argv] as its argument. *)
Definition main (w : World) (argv : list string) : io Z :=
  if len argv <? 3 then
    print usage_line ;;;
    print example_line ;;;
    ret 2
  else
    let repo_root := Path_resolve (Path_of_str (nth 1 argv "")) in
    let pattern := nth 2 argv "" in
    max_hits <- lift (int_arg argv 3 8) ;;
    radius <- lift (int_arg argv 4 60) ;;
    hits <- search_and_slice w repo_root pattern max_hits radius ;;
    report hits.

End Program.

(* ================================================================== *)
(** ** A concrete library and world, to run the program on examples *)
(* ================================================================== *)

Module Demo.

(** Text with every apostrophe read as a double quote, to write JSON
    in examples. *)
Fixpoint q (s : string) : string :=
  match s with
  | EmptyString => EmptyString
  | String c rest =>
      String (if Ascii.eqb c (ascii_of_nat 39) then ascii_of_nat 34 else c) (q rest)
  end.

Definition json_ws (c : ascii) : bool :=
  let n := nat_of_ascii c in ((n =? 32) || (n =? 9) || (n =? 10) || (n =? 13))%nat.

Fixpoint skip_ws (s : string) : string :=
  match s with
  | EmptyString => EmptyString
  | String c rest => if json_ws c then skip_ws rest else s
  end.

Definition digit_val (c : ascii) : option Z :=
  let n := nat_of_ascii c in
  if ((48 <=? n) && (n <=? 57))%nat then Some (Z.of_nat (n - 48)) else None.

Fixpoint read_digits (acc : Z) (s : string) : Z * string :=
  match s with
  | EmptyString => (acc, EmptyString)
  | String c rest =>
      match digit_val c with
      | Some d => read_digits (10 * acc + d) rest
      | None => (acc, s)
      end
  end.

(** An unsigned JSON integer: digits without a leading zero, not
    followed by a fraction or an exponent. *)
Definition read_nat (s : string) : option (Z * string) :=
  match s with
  | EmptyString => None
  | String c rest =>
      match digit_val c with
      | None => None
      | Some d =>
          let '(n, rest') := read_digits d rest in
          let leading_zero :=
            (d =? 0) && negb (rest =? rest')%string in
          let floating :=
            match rest' with
            | String e _ => existsb (Ascii.eqb e) (list_ascii_of_string ".eE")
            | EmptyString => false
            end in
          if leading_zero || floating then None else Some (n, rest')
      end
  end.

Definition unescape (c : ascii) : option ascii :=
  let n := nat_of_ascii c in
  if ((n =? 34) || (n =? 92) || (n =? 47))%nat then Some c
  else if (n =? 98)%nat then Some (ascii_of_nat 8)
  else if (n =? 102)%nat then Some (ascii_of_nat 12)
  else if (n =? 110)%nat then Some (ascii_of_nat 10)
  else if (n =? 114)%nat then Some (ascii_of_nat 13)
  else if (n =? 116)%nat then Some (ascii_of_nat 9)
  else None.

(** The rest of a JSON string after its opening quote. *)
Fixpoint read_string (acc s : string) : option (string * string) :=
  match s with
  | EmptyString => None
  | String c rest =>
      let n := nat_of_ascii c in
      if (n =? 34)%nat then Some (acc, rest)
      else if (n <? 32)%nat then None
      else if (n =? 92)%nat then
        match rest with
        | String e rest' =>
            match unescape e with
            | Some c' => read_string (acc ++ String c' "") rest'
            | None => None
            end
        | EmptyString => None
        end
      else read_string (acc ++ String c "") rest
  end.

Fixpoint strip_prefix (p s : string) : option string :=
  match p, s with
  | EmptyString, _ => Some s
  | String a p', String b s' => if Ascii.eqb a b then strip_prefix p' s' else None
  | _, EmptyString => None
  end.

Definition starts (c : string) (s : string) : option string := strip_prefix c s.

(** A recursive-descent reader of JSON values; [fuel] bounds the number
    of nested calls. *)
Fixpoint read_value (fuel : nat) (s : string) {struct fuel} : option (pyval * string) :=
  match fuel with
  | O => None
  | S f =>
      let s := skip_ws s in
      match starts "null" s, starts "true" s, starts "false" s with
      | Some r, _, _ => Some (PNone, r)
      | _, Some r, _ => Some (PBool true, r)
      | _, _, Some r => Some (PBool false, r)
      | _, _, _ =>
      match starts (q "'") s, starts "[" s, starts "{" s, starts "-" s with
      | Some r, _, _, _ =>
          option_map (fun '(t, r') => (PStr t, r')) (read_string "" r)
      | _, Some r, _, _ =>
          match starts "]" (skip_ws r) with
          | Some r' => Some (PList [], r')
          | None => option_map (fun '(xs, r') => (PList xs, r')) (read_elems f r)
          end
      | _, _, Some r, _ =>
          match starts "}" (skip_ws r) with
          | Some r' => Some (PDict [], r')
          | None => option_map (fun '(d, r') => (PDict (rev d), r')) (read_members f r)
          end
      | _, _, _, Some r => option_map (fun '(n, r') => (PInt (- n), r')) (read_nat r)
      | _, _, _, _ => option_map (fun '(n, r') => (PInt n, r')) (read_nat s)
      end
      end
  end
with read_elems (fuel : nat) (s : string) {struct fuel} : option (list pyval * string) :=
  match fuel with
  | O => None
  | S f =>
      match read_value f s with
      | None => None
      | Some (v, r) =>
          let r := skip_ws r in
          match starts "]" r, starts "," r with
          | Some r', _ => Some ([v], r')
          | _, Some r' => option_map (fun '(vs, r'') => (v :: vs, r'')) (read_elems f r')
          | _, _ => None
          end
      end
  end
with read_members (fuel : nat) (s : string) {struct fuel}
  : option (list (string * pyval) * string) :=
  match fuel with
  | O => None
  | S f =>
      match starts (q "'") (skip_ws s) with
      | None => None
      | Some r =>
          match read_string "" r with
          | None => None
          | Some (k, r) =>
              match starts ":" (skip_ws r) with
              | None => None
              | Some r =>
                  match read_value f r with
                  | None => None
                  | Some (v, r) =>
                      let r := skip_ws r in
                      match starts "}" r, starts "," r with
                      | Some r', _ => Some ([(k, v)], r')
                      | _, Some r' =>
                          option_map (fun '(d, r'') => ((k, v) :: d, r''))
                                     (read_members f r')
                      | _, _ => None
                      end
                  end
              end
          end
      end
  end.

(** [json.loads] on the fragment of JSON without floats, [NaN],
    [Infinity] and [\u] escapes, for texts short of the limits on digits
    and on nesting; a later binding of a repeated key wins, as in a
    Python [dict]. *)
Definition loads (s : string) : loaded :=
  match read_value (2 * String.length s + 2) s with
  | Some (v, r) => if (skip_ws r =? "")%string then Loaded v else Failed NotJSON
  | None => Failed NotJSON
  end.

(** [int(s)] on plain decimal literals with an optional sign. *)
Definition int_literal (s : string) : option Z :=
  let digits (t : string) :=
    match t with
    | EmptyString => None
    | _ => match read_digits 0 t with
           | (n, EmptyString) => Some n
           | _ => None
           end
    end in
  match starts "-" s, starts "+" s with
  | Some r, _ => option_map Z.opp (digits r)
  | _, Some r => digits r
  | _, _ => digits s
  end.

(** Paths as their text, for paths already in normal and absolute form
    (where [Path(s)], [str(p)] and [p.resolve()] change nothing). *)
Definition lib : PyLib := {|
  Path := string;
  Path_of_str := fun s => s;
  str_of_Path := fun p => p;
  Path_resolve := fun p => p;
  json_loads := loads;
  int_of_str := int_literal
|}.

Definition text_of_lines (ls : list string) : string :=
  String.concat "" (map (fun l => l ++ nl)%string ls).

(** A repository [/repo] with a file [a.txt] of ten lines, an empty
    file, a file that cannot be read and a directory [sub]. *)
Definition a_txt : string :=
  text_of_lines ["one"; "two"; "three"; "four"; "five"; "six"; "seven";
                 "eight"; "nine"; "ten"].

Definition disk (p : string) : option node :=
  if (p =? "/repo")%string then Some Dir
  else if (p =? "/repo/sub")%string then Some Dir
  else if (p =? "/repo/a.txt")%string then Some (File a_txt)
  else if (p =? "/repo/empty.txt")%string then Some (File "")
  else if (p =? "/repo/locked.txt")%string then
    Some (Unreadable (PermissionError "[Errno 13] Permission denied: '/repo/locked.txt'"))
  else None.

(** A world whose search process always answers [out] and [err]. *)
Definition world (out err : string) : @World lib :=
  {| fs := disk : @Path lib -> option node;
     runner := fun _ => Ok {| stdout := Some out; stderr := Some err |} |}.

(** A world in which the search executable cannot be launched. *)
Definition world_without_rg : @World lib :=
  {| fs := disk : @Path lib -> option node;
     runner := fun _ =>
       Raise (FileNotFoundError "[Errno 2] No such file or directory: 'rg'") |}.

(** One match record of the search process, as a line of JSON. *)
Definition match_record (path : string) (line_number : string) : string :=
  q ("{'type':'match','data':{'path':{'text':'" ++ path ++ "'},'lines':{'text':'x'},'line_number':"
       ++ line_number ++ ",'absolute_offset':0,'submatches':[]}}")%string.

Definition begin_record (path : string) : string :=
  q ("{'type':'begin','data':{'path':{'text':'" ++ path ++ "'}}}")%string.

End Demo.

(* ================================================================== *)
(** ** Vocabulary of the properties *)
(* ================================================================== *)

Section Vocabulary.
Context `{py : PyLib}.

(** The field [k] of a JSON value: absent ([None]) when the value is not
    an object or has no such key. *)
Definition field (v : pyval) (k : string) : pyval :=
  match v with
  | PDict d => dict_get d k
  | _ => PNone
  end.

Definition is_object (v : pyval) : bool :=
  match v with
  | PDict _ => true
  | _ => false
  end.

(** A record of the search output: a JSON object whose [data] and
    [data.path], where present, are objects (or a falsy value such as
    [null], which the decoder replaces by an empty object). *)
Definition is_record (obj : pyval) : Prop :=
  is_object obj = true /\
  (is_object (field obj "data") = true \/ truthy (field obj "data") = false) /\
  (is_object (field (field obj "data") "path") = true
   \/ truthy (field (field obj "data") "path") = false).

(** The record has no [data.path.text]. *)
Definition lacks_path_text (obj : pyval) : Prop :=
  field (field (field obj "data") "path") "text" = PNone.

(** The [data.line_number] of the record is not an [int] of Python. *)
Definition line_number_not_int (obj : pyval) : Prop :=
  as_int (field (field obj "data") "line_number") = None.

(** The record is a match that names the file [text] and the line [n]. *)
Definition is_match_of (obj : pyval) (text : string) (n : intlike) : Prop :=
  field obj "type" = PStr "match" /\
  field (field (field obj "data") "path") "text" = PStr text /\
  as_int (field (field obj "data") "line_number") = Some n.

(** The exceptions of the decoder: those of [json.loads], of [.get] on a
    value that is not an object, and of [Path] on one that is not text. *)
Definition decoder_exn (e : exn) : Prop :=
  (exists f, e = json_exn f) \/ e = AttributeError \/ e = TypeError.

(** The path, when it exists, can be read as text: it is neither a
    directory nor a file whose read raises. *)
Definition readable (w : World) (p : Path) : bool :=
  match fs w p with
  | Some Dir | Some (Unreadable _) => false
  | _ => true
  end.

(** The matches one line of output contributes: the pair of a match
    record, nothing for a line the decoder skips. *)
Definition line_yield (ln : string) : list rg_match :=
  match decode_line ln with
  | Ok (Some m) => [m]
  | _ => []
  end.

(** [slice_window] does not drop the match: it returns a window that is
    not blank. *)
Definition keeps_window (w : World) (radius : Z) (m : rg_match) : bool :=
  match slice_window w (fst m) (snd m) radius with
  | Ok win => negb (is_blank win)
  | Raise _ => false
  end.

(** The match a [Hit] was made from. *)
Definition hit_match (h : Hit) : rg_match := (file h, line h).

(** [enumerate(xs, start=i)] *)
Fixpoint enumerate {A} (i : Z) (xs : list A) : list (Z * A) :=
  match xs with
  | [] => []
  | x :: rest => (i, x) :: enumerate (i + 1) rest
  end.

(** What [main] prints for its hits: per hit, a banner with the ordinal
    of the hit and the number of hits, then the window. *)
Definition hit_lines (hits : list Hit) : list event :=
  flat_map (fun '(i, h) => [Printed (banner i (len hits)); Printed (window h)])
           (enumerate 1 hits).

(** The integer a decimal text denotes, if it is one. *)
Definition int_of_text (s : string) : option Z :=
  option_map Z.of_int (NilZero.int_of_string s).

(** The events of a trace that spawn a process, and their number. *)
Definition is_spawned (ev : event) : bool :=
  match ev with
  | Spawned _ => true
  | Printed _ => false
  end.

Definition spawn_count (evs : list event) : nat :=
  length (filter is_spawned evs).

(** The texts a trace prints, in order. *)
Fixpoint printed (evs : list event) : list string :=
  match evs with
  | [] => []
  | Printed text :: rest => text :: printed rest
  | Spawned _ :: rest => printed rest
  end.

End Vocabulary.

(* ================================================================== *)
(** ** Facts about the built-ins *)
(* ================================================================== *)

Lemma lstrip_blank (s : string) : is_blank s = true -> lstrip s = "".
Proof.
  unfold is_blank. induction s as [|c s IH]; simpl; [reflexivity|].
  intros H. apply andb_true_iff in H as [Hc Hs]. rewrite Hc. auto.
Qed.

Lemma lstrip_shape (s : string) :
  lstrip s = "" \/ exists c r, lstrip s = String c r /\ is_space c = false.
Proof.
  induction s as [|c s IH]; simpl; [now left|].
  destruct (is_space c) eqn:Hc; [exact IH|]. right. eauto.
Qed.

Lemma lstrip_empty_blank (s : string) : lstrip s = "" -> is_blank s = true.
Proof.
  unfold is_blank. induction s as [|c s IH]; simpl; [reflexivity|].
  destruct (is_space c); [auto | discriminate].
Qed.

Lemma rstrip_empty_blank (s : string) : rstrip s = "" -> is_blank s = true.
Proof.
  unfold is_blank. induction s as [|c s IH]; simpl; [reflexivity|].
  destruct (rstrip s); [|discriminate].
  destruct (is_space c); [auto | discriminate].
Qed.

(** [s.strip() == ""] holds exactly of the whitespace-only texts. *)
Lemma strips_to_empty_blank (s : string) : strips_to_empty s = is_blank s.
Proof.
  unfold strips_to_empty, strip.
  destruct (is_blank s) eqn:Hb.
  - now rewrite (lstrip_blank s Hb).
  - apply String.eqb_neq. intros H. apply rstrip_empty_blank in H.
    destruct (lstrip_shape s) as [He | (c & r & He & Hc)].
    + apply lstrip_empty_blank in He. congruence.
    + rewrite He in H. unfold is_blank in H. simpl in H.
      rewrite Hc in H. discriminate.
Qed.

Lemma is_blank_append (a b : string) :
  is_blank (a ++ b) = is_blank a && is_blank b.
Proof.
  unfold is_blank. induction a as [|c a IH]; simpl; [reflexivity|].
  now rewrite IH, andb_assoc.
Qed.

Lemma is_blank_empty (s : string) : s = "" -> is_blank s = true.
Proof. now intros ->. Qed.

Lemma append_snoc_nonempty (s : string) (c : ascii) : (s ++ String c "")%string <> "".
Proof. destruct s; discriminate. Qed.

Lemma splitlines_from_nil (s cur : string) :
  splitlines_from cur s = [] -> cur = "" /\ s = "".
Proof.
  revert cur. induction s as [|c s IH]; simpl; intros cur H.
  - destruct (String.eqb_spec cur ""); [auto | discriminate].
  - destruct (is_linebreak c); [discriminate|].
    apply IH in H as [H _]. now apply append_snoc_nonempty in H.
Qed.

(** A text splits into zero lines exactly when it is empty. *)
Lemma splitlines_nil_iff (s : string) : splitlines s = [] <-> s = "".
Proof.
  split.
  - intros H. now apply splitlines_from_nil in H.
  - now intros ->.
Qed.

Lemma len_nonneg {A} (xs : list A) : 0 <= len xs.
Proof. unfold len. lia. Qed.

Lemma len_zero_iff {A} (xs : list A) : len xs = 0 <-> xs = [].
Proof.
  unfold len. destruct xs; simpl; split; intros H;
    try reflexivity; try discriminate; lia.
Qed.

Lemma len_app {A} (xs ys : list A) : len (xs ++ ys) = len xs + len ys.
Proof. unfold len. rewrite length_app. lia. Qed.

(** A slice between bounds already inside the list. *)
Lemma slice_inside {A} (xs : list A) (i j : Z) :
  0 <= i -> 0 <= j <= len xs ->
  slice xs i j = firstn (Z.to_nat (j - i)) (skipn (Z.to_nat (Z.min i (len xs))) xs).
Proof.
  intros Hi Hj. unfold slice, slice_bound.
  destruct (Z.ltb_spec i 0); [lia|]. destruct (Z.ltb_spec j 0); [lia|].
  rewrite (Z.min_l j) by lia.
  destruct (Z.le_gt_cases i (len xs)).
  - now rewrite Z.min_l by lia.
  - rewrite Z.min_r by lia.
    replace (Z.to_nat (j - len xs)) with O by lia.
    replace (Z.to_nat (j - i)) with O by lia. reflexivity.
Qed.

Lemma len_slice {A} (xs : list A) (i j : Z) :
  0 <= i <= j -> j <= len xs -> len (slice xs i j) = j - i.
Proof.
  intros Hi Hj. rewrite slice_inside by lia. unfold len in *.
  rewrite length_firstn, length_skipn. lia.
Qed.

Lemma nth_error_slice {A} (xs : list A) (i j k : Z) :
  0 <= i <= j -> j <= len xs -> 0 <= k < j - i ->
  nth_error (slice xs i j) (Z.to_nat k) = nth_error xs (Z.to_nat (i + k)).
Proof.
  intros Hi Hj Hk. rewrite slice_inside by lia.
  rewrite nth_error_firstn.
  destruct (Nat.ltb_spec (Z.to_nat k) (Z.to_nat (j - i))); [|lia].
  rewrite nth_error_skipn. f_equal. lia.
Qed.

(** A slice whose upper bound does not pass its lower bound is empty,
    wherever the bounds lie. *)
Lemma slice_empty {A} (xs : list A) (i j : Z) :
  slice_bound xs j <= slice_bound xs i -> slice xs i j = [].
Proof.
  intros H. unfold slice.
  replace (Z.to_nat (slice_bound xs j - slice_bound xs i)) with O by lia.
  reflexivity.
Qed.

(* ================================================================== *)
(** ** The window slicer *)
(* ================================================================== *)

Section SliceWindow.
Context `{py : PyLib}.
Variable w : World.

Lemma path_exists_file (p : Path) (n : node) :
  fs w p = Some n -> path_exists w p = true.
Proof. unfold path_exists. now intros ->. Qed.

Lemma header_not_blank (p : Path) (L : intlike) (a b : Z) (rest : string) :
  is_blank (window_header p L a b ++ rest) = false.
Proof.
  unfold window_header. rewrite !is_blank_append.
  replace (is_blank ":") with false by reflexivity.
  now rewrite andb_false_r.
Qed.

(** What [slice_window] returns once its three guards are passed: the
    window around [center_line], clamped to the file. *)
Lemma slice_window_reads (p : Path) (text : string) (L : intlike) (R : Z) :
  fs w p = Some (File text) ->
  splitlines text <> [] ->
  1 <= int_val L ->
  let lines := splitlines text in
  let start := Z.max (int_val L - 1 - R) 0 in
  let end_ := Z.min (int_val L - 1 + R + 1) (len lines) in
  slice_window w p L R =
    Ok (window_header p L start end_ ++ nl ++ join nl (slice lines start end_))%string.
Proof.
  intros Hfs Hne HL. unfold slice_window.
  rewrite (path_exists_file _ _ Hfs). simpl.
  destruct (Z.leb_spec (int_val L) 0); [lia|].
  unfold read_text. rewrite Hfs. simpl.
  destruct (Z.eqb_spec (len (splitlines text)) 0) as [E|_].
  - now apply len_zero_iff in E.
  - now rewrite (Z.max_l (int_val L - 1) 0) by lia.
Qed.

(** C8.  [slice_window] returns the empty string whenever the file does
    not exist (whatever the center line and the radius), whenever the
    center line is not positive, and whenever the text of the file splits
    into zero lines. *)
Theorem slice_window_empty (p : Path) (center_line : intlike) (radius : Z) :
  fs w p = None \/
  int_val center_line <= 0 \/
  (exists text, fs w p = Some (File text) /\ splitlines text = []) ->
  slice_window w p center_line radius = Ok "".
Proof.
  unfold slice_window, path_exists, read_text.
  intros [H | [H | (text & H & Hnil)]].
  - now rewrite H.
  - destruct (fs w p); simpl; [|reflexivity].
    now destruct (Z.leb_spec (int_val center_line) 0); [|lia].
  - rewrite H. simpl.
    destruct (int_val center_line <=? 0); [reflexivity|].
    simpl. now rewrite Hnil.
Qed.

Lemma append_assoc (a b c : string) : ((a ++ b) ++ c = a ++ b ++ c)%string.
Proof. induction a as [|x a IH]; simpl; [reflexivity | now rewrite IH]. Qed.

(** The text of a window, character for character. *)
Lemma window_text (p : Path) (L : intlike) (a b : Z) (rest : string) :
  (window_header p L a b ++ rest)%string =
  (str_of_Path p ++ ":" ++ str_of_intlike L ++ " (lines "
     ++ str_of_int (a + 1) ++ "-" ++ str_of_int b ++ ")" ++ rest)%string.
Proof. unfold window_header. now rewrite !append_assoc. Qed.

(** [str(n)] is the decimal text of [n]: it reads back as [n]. *)
Lemma str_of_int_reads_back (n : Z) : int_of_text (str_of_int n) = Some n.
Proof.
  unfold int_of_text, str_of_int.
  rewrite NilZero.isi.
  - simpl. now rewrite DecimalZ.of_to.
  - intros H. pose proof (DecimalZ.of_to n) as E. rewrite H in E.
    simpl in E. subst n. discriminate H.
  - intros H. pose proof (DecimalZ.of_to n) as E. rewrite H in E.
    simpl in E. subst n. discriminate H.
Qed.

(** C2.  For an existing file of [N] lines, a center line [L] with
    [1 <= L <= N] and a radius [R >= 0], [slice_window] returns the text
    [<file>:<L> (lines <start+1>-<end_>)] with [start = max(L-1-R, 0)] and
    [end_ = min(L-1+R+1, N)] written in decimal, then a newline, then a
    body of exactly [end_ - start] lines joined by newlines: the lines
    [start+1 .. end_] of the file, counted from 1. *)
Theorem slice_window_range (p : Path) (text : string) (L : intlike) (R : Z) :
  fs w p = Some (File text) ->
  let lines := splitlines text in
  let N := len lines in
  1 <= int_val L <= N ->
  0 <= R ->
  let start := Z.max (int_val L - 1 - R) 0 in
  let end_ := Z.min (int_val L - 1 + R + 1) N in
  exists body : list string,
    slice_window w p L R =
      Ok (str_of_Path p ++ ":" ++ str_of_intlike L ++ " (lines "
            ++ str_of_int (start + 1) ++ "-" ++ str_of_int end_ ++ ")"
            ++ nl ++ String.concat nl body)%string /\
    int_of_text (str_of_int (start + 1)) = Some (start + 1) /\
    int_of_text (str_of_int end_) = Some end_ /\
    len body = end_ - start /\
    (forall i, start + 1 <= i <= end_ ->
       nth_error body (Z.to_nat (i - (start + 1))) = nth_error lines (Z.to_nat (i - 1))) /\
    1 <= start + 1 <= int_val L /\ int_val L <= end_ <= N.
Proof.
  intros Hfs lines N HL HR start end_.
  assert (Hne : splitlines text <> []).
  { intros E. apply len_zero_iff in E. fold lines in E. fold N in E. lia. }
  exists (slice lines start end_).
  assert (Hs : 0 <= start <= end_) by (subst start end_; lia).
  assert (He : end_ <= len lines) by (subst end_ N; lia).
  split; [|split; [|split; [|split; [|split]]]].
  - rewrite (slice_window_reads p text L R Hfs Hne (proj1 HL)).
    now rewrite window_text.
  - apply str_of_int_reads_back.
  - apply str_of_int_reads_back.
  - now apply len_slice.
  - intros i Hi.
    rewrite nth_error_slice by lia. f_equal. lia.
  - subst start end_ N. lia.
Qed.

(** C10.  For an existing file whose text splits into at least one line
    and a center line of at least 1, [slice_window] returns, for every
    radius, the header line [<file>:<L> (lines <start+1>-<end_>)]
    followed by a newline and the body: a text that is neither empty nor
    blank, so the loop of [search_and_slice] appends a [Hit] for it.
    When the window lies wholly past the last line ([N <= L-1-R], which
    needs a center line beyond the file) the body is empty and the range
    the header displays is inverted; with a negative radius the range it
    displays is inverted as well. *)
Theorem slice_window_header_always (p : Path) (text : string) (L : intlike) (R : Z)
    (rest : list rg_match) (results : list Hit) :
  fs w p = Some (File text) ->
  splitlines text <> [] ->
  1 <= int_val L ->
  let lines := splitlines text in
  let start := Z.max (int_val L - 1 - R) 0 in
  let end_ := Z.min (int_val L - 1 + R + 1) (len lines) in
  let body := slice lines start end_ in
  let win := (str_of_Path p ++ ":" ++ str_of_intlike L ++ " (lines "
                ++ str_of_int (start + 1) ++ "-" ++ str_of_int end_ ++ ")"
                ++ nl ++ String.concat nl body)%string in
  slice_window w p L R = Ok win /\
  int_of_text (str_of_int (start + 1)) = Some (start + 1) /\
  int_of_text (str_of_int end_) = Some end_ /\
  win <> "" /\
  strips_to_empty win = false /\
  collect_hits w R ((p, L) :: rest) results =
    collect_hits w R rest (results ++ [mkHit p L win]) /\
  (len lines <= int_val L - 1 - R ->
     body = [] /\ start + 1 > end_ /\
     win = (str_of_Path p ++ ":" ++ str_of_intlike L ++ " (lines "
              ++ str_of_int (start + 1) ++ "-" ++ str_of_int end_ ++ ")" ++ nl)%string) /\
  (R < 0 -> start + 1 > end_).
Proof.
  intros Hfs Hne HL lines start end_ body win.
  assert (Ewin : win = (window_header p L start end_ ++ nl ++ join nl body)%string).
  { subst win. now rewrite window_text. }
  assert (Hwin : slice_window w p L R = Ok win).
  { rewrite Ewin. exact (slice_window_reads p text L R Hfs Hne HL). }
  assert (Hnb : strips_to_empty win = false).
  { rewrite Ewin, strips_to_empty_blank. apply header_not_blank. }
  assert (Hpast : len lines <= int_val L - 1 - R -> body = []).
  { intros Hp. subst body. apply slice_empty.
    pose proof (len_nonneg lines). unfold slice_bound.
    destruct (Z.ltb_spec start 0); [subst start; lia|].
    destruct (Z.ltb_spec end_ 0); subst start end_; lia. }
  split; [exact Hwin|].
  split; [apply str_of_int_reads_back|].
  split; [apply str_of_int_reads_back|].
  split; [intros E; rewrite E in Hnb; discriminate|].
  split; [exact Hnb|].
  split; [simpl; rewrite Hwin; simpl; now rewrite Hnb|].
  split.
  - intros Hp. split; [now apply Hpast|]. split; [subst start end_; lia|].
    subst win. now rewrite (Hpast Hp).
  - intros HR. subst start end_. lia.
Qed.

End SliceWindow.

Lemma slice_window_empty_witness :
  @slice_window Demo.lib (Demo.world "" "") "/repo/gone.txt" (Int 3) 2 = Ok ""
  /\ @slice_window Demo.lib (Demo.world "" "") "/repo/a.txt" (Int 0) 2 = Ok ""
  /\ @slice_window Demo.lib (Demo.world "" "") "/repo/empty.txt" (Int 1) 2 = Ok "".
Proof.
  split; [|split]; apply (@slice_window_empty Demo.lib).
  - left. reflexivity.
  - right. left. simpl. lia.
  - right. right. exists "". split; reflexivity.
Defined.

Lemma slice_window_range_witness :
  exists body : list string,
    @slice_window Demo.lib (Demo.world "" "") "/repo/a.txt" (Int 5) 2 =
      Ok ("/repo/a.txt:5 (lines 3-7)
" ++ String.concat "
" body)%string /\
    int_of_text "3" = Some (2 + 1) /\
    int_of_text "7" = Some 7 /\
    len body = 7 - 2 /\
    (forall i, 2 + 1 <= i <= 7 ->
       nth_error body (Z.to_nat (i - (2 + 1))) =
       nth_error ["one"; "two"; "three"; "four"; "five"; "six"; "seven";
                  "eight"; "nine"; "ten"] (Z.to_nat (i - 1))) /\
    1 <= 2 + 1 <= 5 /\ 5 <= 7 <= 10.
Proof.
  apply (@slice_window_range Demo.lib (Demo.world "" "") "/repo/a.txt" Demo.a_txt (Int 5) 2).
  - reflexivity.
  - vm_compute. split; discriminate.
  - lia.
Defined.

(** The window of the witness above, in full. *)
Example slice_window_range_text :
  @slice_window Demo.lib (Demo.world "" "") "/repo/a.txt" (Int 5) 2 =
    Ok "/repo/a.txt:5 (lines 3-7)
three
four
five
six
seven".
Proof. vm_compute. reflexivity. Qed.

Lemma slice_window_header_always_witness :
  (@slice_window Demo.lib (Demo.world "" "") "/repo/a.txt" (Int 20) 2 =
     Ok "/repo/a.txt:20 (lines 18-10)
"
   /\ @collect_hits Demo.lib (Demo.world "" "") 2 [("/repo/a.txt", Int 20)] [] =
        Ok [@mkHit Demo.lib "/repo/a.txt" (Int 20) "/repo/a.txt:20 (lines 18-10)
"]
   /\ 17 + 1 > 10)
  /\
  (@slice_window Demo.lib (Demo.world "" "") "/repo/a.txt" (Int 1) (-2) =
     Ok "/repo/a.txt:1 (lines 3--1)
three
four
five
six
seven
eight
nine"
   /\ 2 + 1 > -1).
Proof.
  split.
  - destruct (@slice_window_header_always Demo.lib (Demo.world "" "") "/repo/a.txt"
                Demo.a_txt (Int 20) 2 [] [])
      as (Hwin & _ & _ & _ & _ & Hhit & Hpast & _).
    + reflexivity.
    + vm_compute. discriminate.
    + simpl. lia.
    + destruct Hpast as (_ & Hinv & Htext); [vm_compute; discriminate|].
      rewrite Htext in Hwin, Hhit.
      split; [exact Hwin|]. split; [exact Hhit | exact Hinv].
  - destruct (@slice_window_header_always Demo.lib (Demo.world "" "") "/repo/a.txt"
                Demo.a_txt (Int 1) (-2) [] [])
      as (Hwin & _ & _ & _ & _ & _ & _ & Hneg).
    + reflexivity.
    + vm_compute. discriminate.
    + simpl. lia.
    + split; [exact Hwin | apply Hneg; lia].
Defined.

(** A negative radius: the header shows an inverted range, and the
    slice [lines[2:-1]] counts its upper bound from the end of the file. *)
Example slice_window_negative_radius :
  @slice_window Demo.lib (Demo.world "" "") "/repo/a.txt" (Int 1) (-2) =
    Ok ("/repo/a.txt:1 (lines 3--1)" ++ nl
        ++ join nl ["three"; "four"; "five"; "six"; "seven"; "eight"; "nine"])%string.
Proof. vm_compute. reflexivity. Qed.

(** A radius larger than the file: the whole file is shown. *)
Example slice_window_whole_file :
  @slice_window Demo.lib (Demo.world "" "") "/repo/a.txt" (Int 1) 50 =
    Ok ("/repo/a.txt:1 (lines 1-10)" ++ nl ++ join nl (splitlines Demo.a_txt))%string.
Proof. vm_compute. reflexivity. Qed.

(* ================================================================== *)
(** ** The match decoder *)
(* ================================================================== *)

Section Decoder.
Context `{py : PyLib}.

Lemma get_or_empty (v : pyval) (k : string) :
  is_object v = true \/ truthy v = false ->
  get (py_or v (PDict [])) k = Ok (field v k).
Proof.
  unfold py_or.
  destruct v as [| b | z | nz | s | xs | d]; simpl;
    intros [H | H]; try discriminate; try (rewrite H; reflexivity);
    try reflexivity; now destruct d.
Qed.

Lemma field_object (v : pyval) (k : string) :
  field v k <> PNone -> is_object v = true /\ truthy v = true.
Proof.
  destruct v as [| b | z | nz | s | xs | d]; simpl; try congruence.
  destruct d; simpl; [congruence | auto].
Qed.

Lemma decode_line_blank (ln : string) :
  is_blank ln = true -> decode_line ln = Ok None.
Proof.
  intros H. unfold decode_line. now rewrite strips_to_empty_blank, H.
Qed.

(** A line [json.loads] fails on ends the decoding with the exception
    of [json.loads]: [JSONDecodeError] for a line that is not JSON. *)
Lemma decode_line_malformed (ln : string) (f : json_failure) :
  is_blank ln = false -> json_loads ln = Failed f ->
  decode_line ln = Raise (json_exn f).
Proof.
  intros Hb Hl. unfold decode_line. now rewrite strips_to_empty_blank, Hb, Hl.
Qed.

Lemma decode_line_skips (ln : string) (obj : pyval) :
  json_loads ln = Loaded obj ->
  is_record obj ->
  lacks_path_text obj \/ line_number_not_int obj ->
  decode_line ln = Ok None.
Proof.
  intros Hl (Hobj & Hdata & Hpath) Hbad. unfold decode_line.
  destruct (strips_to_empty ln); [reflexivity|]. rewrite Hl.
  destruct obj as [| | | | | | d]; try discriminate. simpl in *.
  destruct (ne_str (dict_get d "type") "match"); [reflexivity|].
  rewrite (get_or_empty _ "path" Hdata). simpl.
  rewrite (get_or_empty _ "text" Hpath). simpl.
  rewrite (get_or_empty _ "line_number" Hdata). simpl.
  unfold lacks_path_text, line_number_not_int in Hbad. simpl in Hbad.
  destruct Hbad as [Ht | Hn].
  - now rewrite Ht.
  - rewrite Hn.
    now destruct (field (field (dict_get d "data") "path") "text").
Qed.

Lemma decode_line_match (ln : string) (obj : pyval) (text : string) (n : intlike) :
  is_blank ln = false ->
  json_loads ln = Loaded obj ->
  is_match_of obj text n ->
  decode_line ln = Ok (Some (Path_of_str text, n)).
Proof.
  intros Hb Hl (Hty & Htext & Hn). unfold decode_line.
  rewrite strips_to_empty_blank, Hb, Hl.
  assert (Hp : is_object (field (field obj "data") "path") = true).
  { apply (field_object _ "text"). rewrite Htext. discriminate. }
  assert (Hd : is_object (field obj "data") = true).
  { apply (field_object _ "path"). intros E. rewrite E in Hp. discriminate. }
  assert (Ho : is_object obj = true).
  { apply (field_object _ "type"). rewrite Hty. discriminate. }
  destruct obj as [| | | | | | d]; try discriminate. simpl in *.
  rewrite Hty. simpl.
  rewrite (get_or_empty _ "path" (or_introl Hd)). simpl.
  rewrite (get_or_empty _ "text" (or_introl Hp)). simpl.
  rewrite (get_or_empty _ "line_number" (or_introl Hd)). simpl.
  now rewrite Htext, Hn.
Qed.

(** A line the loop skips can be removed from the output without
    changing what the loop does. *)
Lemma decode_lines_skip (max_hits : Z) (before after : list string) (ln : string) :
  decode_line ln = Ok None ->
  forall hits,
    decode_lines max_hits (before ++ ln :: after) hits =
    decode_lines max_hits (before ++ after) hits.
Proof.
  intros Hskip. induction before as [|l before IH]; intros hits; simpl.
  - now rewrite Hskip.
  - destruct (decode_line l) as [[m|]|e]; auto.
    destruct (len (hits ++ [m]) >=? max_hits); auto.
Qed.

(** The loop never lets the list grow past the cap, where the cap is
    [max_hits], or 1 when [max_hits] is below 1: the test follows the
    [append]. *)
Lemma decode_lines_bound (max_hits : Z) (lines : list string) :
  forall hits res,
    decode_lines max_hits lines hits = Ok res ->
    len hits < max_hits \/ hits = [] ->
    len res <= Z.max max_hits 1.
Proof.
  induction lines as [|ln lines IH]; intros hits res H Hinv; simpl in H.
  - inversion H; subst res. destruct Hinv as [Hlt | ->]; [lia|]. unfold len; simpl; lia.
  - destruct (decode_line ln) as [[m|]|e]; try discriminate.
    + destruct (Z.geb_spec (len (hits ++ [m])) max_hits) as [Hge|Hlt].
      * inversion H; subst res. rewrite len_app in *.
        destruct Hinv as [Hlt | ->]; unfold len in *; simpl in *; lia.
      * apply (IH _ _ H). now left.
    + now apply (IH _ _ H).
Qed.

(** Once the loop has returned [max_hits] matches it has stopped: no
    later line is read. *)
Lemma decode_lines_stops (max_hits : Z) (lines more : list string) :
  forall hits res,
    decode_lines max_hits lines hits = Ok res ->
    len hits < max_hits ->
    len res >= max_hits ->
    decode_lines max_hits (lines ++ more) hits = Ok res.
Proof.
  induction lines as [|ln lines IH]; intros hits res H Hlt Hres; simpl in *.
  - inversion H; subst res. lia.
  - destruct (decode_line ln) as [[m|]|e]; try discriminate.
    + destruct (Z.geb_spec (len (hits ++ [m])) max_hits) as [Hge|Hlt'].
      * exact H.
      * now apply IH.
    + now apply IH.
Qed.

(** When no line raises, the loop returns the first matches of the
    output, in order: [max_hits] of them at most (one, when [max_hits] is
    below 1). *)
Lemma decode_lines_first_matches (max_hits : Z) (lines : list string) :
  (forall ln e, In ln lines -> decode_line ln <> Raise e) ->
  forall hits,
    len hits < Z.max max_hits 1 ->
    decode_lines max_hits lines hits =
      Ok (hits ++ firstn (Z.to_nat (Z.max max_hits 1 - len hits))
                         (flat_map line_yield lines)).
Proof.
  induction lines as [|ln lines IH]; intros Hok hits Hlt; simpl.
  - now rewrite firstn_nil, app_nil_r.
  - assert (Hrest : forall l e, In l lines -> decode_line l <> Raise e)
      by (intros l e Hl; apply Hok; now right).
    unfold line_yield at 1.
    destruct (decode_line ln) as [[m|]|e] eqn:Hln.
    + replace (Z.to_nat (Z.max max_hits 1 - len hits))
        with (S (Z.to_nat (Z.max max_hits 1 - len (hits ++ [m]))))
        by (rewrite len_app; unfold len in *; simpl; lia).
      simpl. destruct (Z.geb_spec (len (hits ++ [m])) max_hits) as [Hge|Hlt'].
      * replace (Z.to_nat (Z.max max_hits 1 - len (hits ++ [m]))) with O
          by (rewrite len_app in *; unfold len in *; simpl in *; lia).
        reflexivity.
      * rewrite (IH Hrest) by lia. now rewrite <- app_assoc.
    + simpl. now apply IH.
    + exfalso. apply (Hok ln e); [now left | exact Hln].
Qed.

(** What [run_rg] does once the root exists and the pattern is not
    blank: it spawns the search process and decodes its output. *)
Lemma run_rg_spawns (w : World) (root : Path) (pattern : string)
    (max_hits : Z) (exclude_globs : list string) :
  path_exists w root = true ->
  is_blank pattern = false ->
  run_rg w root pattern max_hits exclude_globs =
    match runner w (rg_command root pattern exclude_globs) with
    | Raise e => ([Spawned (rg_command root pattern exclude_globs)], Raise e)
    | Ok proc =>
        if is_blank (or_empty (stdout proc)) then
          (Spawned (rg_command root pattern exclude_globs)
             :: (if is_blank (or_empty (stderr proc)) then []
                 else [Printed (strip (or_empty (stderr proc)))]),
           Ok [])
        else
          ([Spawned (rg_command root pattern exclude_globs)],
           decode_lines max_hits (splitlines (or_empty (stdout proc))) [])
    end.
Proof.
  intros Hroot Hpat. unfold run_rg, subprocess_run.
  rewrite Hroot, strips_to_empty_blank, Hpat. simpl.
  destruct (runner w _) as [proc|e]; [|reflexivity].
  rewrite strips_to_empty_blank.
  destruct (is_blank (or_empty (stdout proc))).
  - rewrite <- strips_to_empty_blank. unfold strips_to_empty.
    now destruct (strip (or_empty (stderr proc)) =? "")%string.
  - simpl. now destruct (decode_lines _ _ _).
Qed.

Lemma run_rg_missing_root (w : World) (root : Path) (pattern : string)
    (max_hits : Z) (exclude_globs : list string) :
  path_exists w root = false ->
  run_rg w root pattern max_hits exclude_globs =
    ([], Raise (FileNotFoundError ("Repo root not found: " ++ str_of_Path root))).
Proof. intros H. unfold run_rg. now rewrite H. Qed.

(** Whatever [run_rg] returns, it decoded from the lines of some output,
    unless it returned the empty list. *)
Lemma run_rg_returns (w : World) (root : Path) (pattern : string)
    (max_hits : Z) (exclude_globs : list string) (evs : list event)
    (res : list rg_match) :
  run_rg w root pattern max_hits exclude_globs = (evs, Ok res) ->
  res = [] \/ exists lines, decode_lines max_hits lines [] = Ok res.
Proof.
  intros H.
  destruct (path_exists w root) eqn:Hroot.
  - destruct (is_blank pattern) eqn:Hpat.
    + unfold run_rg in H. rewrite Hroot, strips_to_empty_blank, Hpat in H.
      inversion H. now left.
    + rewrite (run_rg_spawns _ _ _ _ _ Hroot Hpat) in H.
      destruct (runner w _) as [proc|e]; [|discriminate].
      destruct (is_blank (or_empty (stdout proc))).
      * inversion H. now left.
      * inversion H. right. eauto.
  - rewrite (run_rg_missing_root _ _ _ _ _ Hroot) in H. discriminate.
Qed.

(** C1.  A record that is a JSON object, with [data] and
    [data.path] objects where present, and that has no [data.path.text]
    or whose [data.line_number] is not an [int] (a [bool] is one), is
    skipped without a trace: the loop goes on as if the line were not
    there, so the matches of the other records are returned.  (A line
    that is not JSON is not skipped: see [decode_line_malformed].) *)
Theorem decoder_skips_offending_record (max_hits : Z) (before after : list string)
    (ln : string) (obj : pyval) (hits : list rg_match) :
  json_loads ln = Loaded obj ->
  is_record obj ->
  lacks_path_text obj \/ line_number_not_int obj ->
  decode_line ln = Ok None /\
  decode_lines max_hits (before ++ ln :: after) hits =
    decode_lines max_hits (before ++ after) hits.
Proof.
  intros Hl Hrec Hbad.
  assert (Hskip : decode_line ln = Ok None) by exact (decode_line_skips ln obj Hl Hrec Hbad).
  split; [exact Hskip|]. now apply decode_lines_skip.
Qed.

(** C3.  For a requested maximum of at least 1, [run_rg] never
    returns more than [max_hits] matches, and the loop stops as soon as
    it holds [max_hits] of them: whatever output follows is not read. *)
Theorem decoder_hard_cap (max_hits : Z) (w : World) (root : Path) (pattern : string)
    (exclude_globs : list string) (evs : list event) (res : list rg_match) :
  1 <= max_hits ->
  run_rg w root pattern max_hits exclude_globs = (evs, Ok res) ->
  len res <= max_hits /\
  (forall lines more found,
     decode_lines max_hits lines [] = Ok found ->
     len found = max_hits ->
     decode_lines max_hits (lines ++ more) [] = Ok found).
Proof.
  intros Hmax Hrun. split.
  - destruct (run_rg_returns _ _ _ _ _ _ _ Hrun) as [-> | (lines & Hdec)].
    + unfold len; simpl; lia.
    + apply decode_lines_bound in Hdec; [lia | now right].
  - intros lines more found Hdec Hlen.
    apply decode_lines_stops; [exact Hdec | change (len (@nil rg_match)) with 0; lia | lia].
Qed.

End Decoder.

(** Two lines of output: a match at line 5 of [a.txt], then text that is
    not JSON.  [json.loads] raises on the second line and nothing catches
    it, so [run_rg] returns no matches at all. *)
Lemma decoder_raises_on_malformed_line :
  let out := (Demo.match_record "/repo/a.txt" "5" ++ nl ++ "oops" ++ nl)%string in
  Demo.loads "oops" = Failed NotJSON /\
  snd (@run_rg Demo.lib (Demo.world out "") "/repo" "five" 8 []) = Raise JSONDecodeError /\
  snd (@run_rg Demo.lib (Demo.world out "") "/repo" "five" 8 []) <> Ok [("/repo/a.txt", Int 5)].
Proof.
  split; [reflexivity|]. split; [vm_compute; reflexivity|].
  vm_compute. discriminate.
Qed.

(** A match record whose [data] is a number has no [data.path.text]
    either, and is not skipped: [data.get] raises. *)
Example decoder_raises_on_non_object_data :
  @decode_line Demo.lib (Demo.q "{'type':'match','data':5}") = Raise AttributeError.
Proof. vm_compute. reflexivity. Qed.

(** A line number [true] passes [isinstance(line_no, int)]. *)
Example decoder_accepts_boolean_line_number :
  @decode_line Demo.lib (Demo.match_record "/repo/a.txt" "true")
  = Ok (Some ("/repo/a.txt", Bool true)).
Proof. vm_compute. reflexivity. Qed.

Lemma decoder_skips_offending_record_witness :
  let m5 := Demo.match_record "/repo/a.txt" "5" in
  let m7 := Demo.match_record "/repo/a.txt" "7" in
  let bad := Demo.q "{'type':'match','data':{'path':{},'line_number':3}}" in
  @decode_line Demo.lib bad = Ok None /\
  @decode_lines Demo.lib 8 ([m5] ++ bad :: [m7]) [] =
    @decode_lines Demo.lib 8 ([m5] ++ [m7]) [].
Proof.
  intros m5 m7 bad.
  apply (@decoder_skips_offending_record Demo.lib 8 [m5] [m7] bad
           (PDict [("data", PDict [("line_number", PInt 3); ("path", PDict [])]);
                   ("type", PStr "match")]) []).
  - vm_compute. reflexivity.
  - unfold is_record. simpl. auto.
  - left. reflexivity.
Defined.

(** With [max_hits = 0] the one match of the output is still returned:
    one match, above the requested maximum. *)
Lemma decoder_exceeds_zero_cap :
  exists res,
    snd (@run_rg Demo.lib (Demo.world (Demo.match_record "/repo/a.txt" "5" ++ nl) "")
           "/repo" "five" 0 []) = Ok res
    /\ len res = 1 /\ ~ len res <= 0.
Proof.
  exists [("/repo/a.txt", Int 5)].
  split; [vm_compute; reflexivity|]. split; [reflexivity|]. vm_compute. auto.
Qed.

Lemma decoder_hard_cap_witness :
  len [(("/repo/a.txt" : @Path Demo.lib), Int 5)] <= 1 /\
  (forall lines more found,
     @decode_lines Demo.lib 1 lines [] = Ok found ->
     len found = 1 ->
     @decode_lines Demo.lib 1 (lines ++ more) [] = Ok found).
Proof.
  apply (@decoder_hard_cap Demo.lib 1
           (Demo.world (Demo.match_record "/repo/a.txt" "5" ++ nl
                          ++ Demo.match_record "/repo/a.txt" "7" ++ nl) "")
           "/repo" "five" []
           [Spawned (@rg_command Demo.lib "/repo" "five" [])]
           [("/repo/a.txt", Int 5)]).
  - lia.
  - vm_compute. reflexivity.
Defined.

(* ================================================================== *)
(** ** The search invocation *)
(* ================================================================== *)

Lemma bind_ok {A B} (m : io A) (k : A -> io B) (evs : list event) (a : A) :
  m = (evs, Ok a) -> bind m k = (evs ++ fst (k a), snd (k a)).
Proof. intros ->. simpl. now destruct (k a). Qed.

Lemma bind_raise {A B} (m : io A) (k : A -> io B) (evs : list event) (e : exn) :
  m = (evs, Raise e) -> bind m k = (evs, Raise e).
Proof. now intros ->. Qed.

Section RunRg.
Context `{py : PyLib}.

Lemma get_raises (v : pyval) (k : string) (e : exn) :
  get v k = Raise e -> e = AttributeError.
Proof. destruct v; simpl; intros H; now inversion H. Qed.

(** Case on the next [.get] of a decoding in [H]: when it raises, the
    exception is an [AttributeError]. *)
Ltac next_get H :=
  match type of H with
  | context [rbind (get ?v ?k) _] =>
      let E := fresh "E" in
      destruct (get v k) eqn:E; simpl in H;
      [| apply get_raises in E; inversion H; subst; right; left; reflexivity]
  end.

Lemma decode_line_raises (ln : string) (e : exn) :
  decode_line ln = Raise e -> decoder_exn e.
Proof.
  unfold decode_line, decoder_exn. intros H.
  destruct (strips_to_empty ln); [discriminate|].
  destruct (json_loads ln) as [obj|f]; [|inversion H; left; now exists f].
  next_get H. destruct (ne_str _ _); [discriminate|].
  next_get H. next_get H. next_get H.
  match type of H with
  | match ?t with _ => _ end = _ => destruct t; try discriminate
  end;
    (next_get H; destruct (as_int _); [|discriminate];
     simpl in H; try discriminate;
     inversion H; subst; right; right; reflexivity).
Qed.

Lemma decode_lines_raises (max_hits : Z) (lines : list string) :
  forall hits e, decode_lines max_hits lines hits = Raise e -> decoder_exn e.
Proof.
  induction lines as [|ln lines IH]; intros hits e H; simpl in H; [discriminate|].
  destruct (decode_line ln) as [[m|]|e'] eqn:Hln.
  - destruct (len (hits ++ [m]) >=? max_hits); [discriminate | eauto].
  - eauto.
  - inversion H; subst. eapply decode_line_raises; eauto.
Qed.

(** C4.  For an existing repository root and a pattern that is empty or
    all whitespace, [run_rg] returns the empty list and performs no event:
    the search process is not spawned, whatever process runner [spy] the
    world is given. *)
Theorem run_rg_blank_pattern (w : World)
    (spy : list string -> result CompletedProcess)
    (root : Path) (pattern : string) (max_hits : Z) (exclude_globs : list string) :
  path_exists w root = true ->
  is_blank pattern = true ->
  run_rg {| fs := fs w; runner := spy |} root pattern max_hits exclude_globs
    = ([], Ok []).
Proof.
  intros Hroot Hpat. unfold run_rg.
  change (path_exists {| fs := fs w; runner := spy |} root) with (path_exists w root).
  now rewrite Hroot, strips_to_empty_blank, Hpat.
Qed.

(** C7.  When the search process ran and its standard output is
    empty or blank, [run_rg] returns the empty list without raising.  It
    prints the standard error, stripped of surrounding whitespace, when
    that is not blank, and prints nothing when it is. *)
Theorem run_rg_silent_failure (w : World) (root : Path) (pattern : string)
    (max_hits : Z) (exclude_globs : list string) (proc : CompletedProcess) :
  path_exists w root = true ->
  is_blank pattern = false ->
  runner w (rg_command root pattern exclude_globs) = Ok proc ->
  is_blank (or_empty (stdout proc)) = true ->
  let cmd := rg_command root pattern exclude_globs in
  let err := or_empty (stderr proc) in
  (is_blank err = false ->
     run_rg w root pattern max_hits exclude_globs
       = ([Spawned cmd; Printed (strip err)], Ok [])) /\
  (is_blank err = true ->
     run_rg w root pattern max_hits exclude_globs = ([Spawned cmd], Ok [])).
Proof.
  intros Hroot Hpat Hrun Hout cmd err.
  rewrite (run_rg_spawns _ _ _ _ _ Hroot Hpat), Hrun, Hout.
  split; intros Herr; subst err; now rewrite Herr.
Qed.

(** C5.  [run_rg] raises [FileNotFoundError] whenever the
    repository root does not exist.  When the root exists, a
    [FileNotFoundError] out of [run_rg] is the one the launch of the
    search process raised.  Nothing catches an exception of [run_rg]: it
    comes out of [search_and_slice] and of [main] as it is. *)
Theorem run_rg_not_found (w : World) (root : Path) (pattern : string)
    (max_hits radius : Z) :
  let cmd := rg_command root pattern DEFAULT_EXCLUDE_GLOBS in
  let run := run_rg w root pattern max_hits DEFAULT_EXCLUDE_GLOBS in
  (path_exists w root = false ->
     run = ([], Raise (FileNotFoundError ("Repo root not found: " ++ str_of_Path root)))) /\
  (path_exists w root = true ->
     forall msg, snd run = Raise (FileNotFoundError msg) ->
       is_blank pattern = false /\ runner w cmd = Raise (FileNotFoundError msg)) /\
  (forall evs e, run = (evs, Raise e) ->
     search_and_slice w root pattern max_hits radius = (evs, Raise e)) /\
  (forall argv evs e,
     3 <= len argv ->
     Path_resolve (Path_of_str (nth 1 argv "")) = root ->
     nth 2 argv "" = pattern ->
     int_arg argv 3 8 = Ok max_hits ->
     int_arg argv 4 60 = Ok radius ->
     run = (evs, Raise e) ->
     main w argv = (evs, Raise e)).
Proof.
  intros cmd run. split; [|split; [|split]].
  - apply run_rg_missing_root.
  - intros Hroot msg H. subst run.
    destruct (is_blank pattern) eqn:Hpat.
    + unfold run_rg in H.
      rewrite Hroot, strips_to_empty_blank, Hpat in H. discriminate.
    + split; [reflexivity|].
      rewrite (run_rg_spawns _ _ _ _ _ Hroot Hpat) in H. fold cmd in H.
      destruct (runner w cmd) as [proc|e]; [|simpl in H; now inversion H].
      destruct (is_blank (or_empty (stdout proc))); [discriminate|].
      simpl in H. apply decode_lines_raises in H.
      destruct H as [(f & H) | [H | H]]; [destruct f|..]; discriminate.
  - intros evs e H. unfold search_and_slice. now apply bind_raise.
  - intros argv evs e Hlen Hroot Hpat Hmax Hrad H. unfold main.
    destruct (Z.ltb_spec (len argv) 3); [lia|].
    rewrite Hmax, Hrad, Hroot, Hpat. simpl.
    unfold search_and_slice. fold run. now rewrite H.
Qed.

End RunRg.

Lemma run_rg_blank_pattern_witness :
  @run_rg Demo.lib {| fs := Demo.disk : @Path Demo.lib -> option node;
                      runner := fun _ => Raise (OSError "spawned") |}
    "/repo" "   " 8 (@DEFAULT_EXCLUDE_GLOBS) = ([], Ok []).
Proof.
  apply (@run_rg_blank_pattern Demo.lib (Demo.world "" "")
           (fun _ => Raise (OSError "spawned")) "/repo" "   " 8).
  - reflexivity.
  - reflexivity.
Defined.

(** The search process fails and writes a single space to its standard
    error: the stream is not empty, and [run_rg] prints nothing. *)
Lemma run_rg_blank_stderr_not_printed :
  let w := Demo.world "" " " in
  let run := @run_rg Demo.lib w "/repo" "five" 8 [] in
  runner w (@rg_command Demo.lib "/repo" "five" []) =
    Ok {| stdout := Some ""; stderr := Some " " |}
  /\ run = ([Spawned (@rg_command Demo.lib "/repo" "five" [])], Ok [])
  /\ ~ In (Printed " ") (fst run).
Proof.
  split; [reflexivity|]. split; [vm_compute; reflexivity|].
  vm_compute. intros [H | []]. discriminate.
Qed.

Lemma run_rg_silent_failure_witness :
  let w := Demo.world "" ("regex parse error" ++ nl) in
  let cmd := @rg_command Demo.lib "/repo" "(" [] in
  let err := ("regex parse error" ++ nl)%string in
  (is_blank err = false ->
     @run_rg Demo.lib w "/repo" "(" 8 [] = ([Spawned cmd; Printed (strip err)], Ok [])) /\
  (is_blank err = true ->
     @run_rg Demo.lib w "/repo" "(" 8 [] = ([Spawned cmd], Ok [])).
Proof.
  apply (@run_rg_silent_failure Demo.lib
           (Demo.world "" ("regex parse error" ++ nl)) "/repo" "(" 8 []
           {| stdout := Some ""; stderr := Some ("regex parse error" ++ nl)%string |}).
  - reflexivity.
  - reflexivity.
  - reflexivity.
  - reflexivity.
Defined.

(** The repository root exists and the search executable is not
    installed: [run_rg] raises [FileNotFoundError] all the same. *)
Lemma run_rg_not_found_with_root_present :
  path_exists Demo.world_without_rg ("/repo" : @Path Demo.lib) = true /\
  snd (@run_rg Demo.lib Demo.world_without_rg "/repo" "five" 8 (@DEFAULT_EXCLUDE_GLOBS))
  = Raise (FileNotFoundError "[Errno 2] No such file or directory: 'rg'").
Proof. split; vm_compute; reflexivity. Qed.

Lemma run_rg_not_found_witness :
  @main Demo.lib (Demo.world "" "") ["repo_slice.py"; "/nowhere"; "five"]
  = ([], Raise (FileNotFoundError "Repo root not found: /nowhere")).
Proof.
  destruct (@run_rg_not_found Demo.lib (Demo.world "" "") "/nowhere" "five" 8 60)
    as (Hmissing & _ & _ & Hmain).
  apply Hmain.
  - vm_compute. discriminate.
  - reflexivity.
  - reflexivity.
  - reflexivity.
  - reflexivity.
  - apply Hmissing. reflexivity.
Defined.

(* ================================================================== *)
(** ** The orchestrator *)
(* ================================================================== *)

Section Orchestrator.
Context `{py : PyLib}.
Variable w : World.

(** Reading a directory, or a file whose read raises, is the one way
    [slice_window] can raise. *)
Lemma slice_window_returns (p : Path) (L : intlike) (R : Z) :
  readable w p = true -> exists win, slice_window w p L R = Ok win.
Proof.
  unfold readable, slice_window, path_exists, read_text.
  destruct (fs w p) as [[text| |e]|]; simpl; try discriminate; intros _; eauto.
  destruct (int_val L <=? 0); eauto. simpl.
  destruct (len (splitlines text) =? 0); eauto.
Qed.

(** The loop of [search_and_slice] is a filter: when it returns, it has
    appended, in the order of the matches, one [Hit] for every match
    whose window is not blank, and no slicing has raised. *)
Lemma collect_hits_returned (radius : Z) (matches : list rg_match) :
  forall results out,
    collect_hits w radius matches results = Ok out ->
    exists hits,
      out = results ++ hits /\
      map hit_match hits = filter (keeps_window w radius) matches /\
      Forall (fun h => slice_window w (file h) (line h) radius = Ok (window h)
                       /\ is_blank (window h) = false) hits /\
      (forall m e, In m matches ->
         slice_window w (fst m) (snd m) radius <> Raise e).
Proof.
  induction matches as [|[p L] matches IH]; intros results out H; simpl in H.
  - inversion H. exists []. rewrite app_nil_r.
    split; [reflexivity|]. split; [reflexivity|]. split; [constructor|].
    intros m e [].
  - destruct (slice_window w p L radius) as [win|e0] eqn:Hwin; [|discriminate].
    simpl in H. rewrite strips_to_empty_blank in H.
    unfold keeps_window at 1. simpl. rewrite Hwin.
    assert (Hhead : forall m e, In m ((p, L) :: matches) ->
              (forall m' e', In m' matches ->
                 slice_window w (fst m') (snd m') radius <> Raise e') ->
              slice_window w (fst m) (snd m) radius <> Raise e).
    { intros m e [<- | Hm] Hrest; [simpl; rewrite Hwin; discriminate | now apply Hrest]. }
    destruct (is_blank win) eqn:Hb; simpl.
    + destruct (IH _ _ H) as (hits & -> & Hm & Hall & Hno).
      exists hits. split; [reflexivity|]. split; [exact Hm|]. split; [exact Hall|].
      intros m e Hin. now apply Hhead.
    + destruct (IH _ _ H) as (hits & -> & Hm & Hall & Hno).
      exists (mkHit p L win :: hits). split; [now rewrite <- app_assoc|].
      split; [simpl; now rewrite Hm|].
      split; [constructor; [now split | exact Hall]|].
      intros m e Hin. now apply Hhead.
Qed.

(** The loop returns when no slicing raises. *)
Lemma collect_hits_total (radius : Z) (matches : list rg_match) :
  (forall m e, In m matches -> slice_window w (fst m) (snd m) radius <> Raise e) ->
  forall results, exists out, collect_hits w radius matches results = Ok out.
Proof.
  induction matches as [|[p L] matches IH]; intros Hno results; simpl; [eauto|].
  assert (Hrest : forall m e, In m matches ->
            slice_window w (fst m) (snd m) radius <> Raise e)
    by (intros m e Hm; apply Hno; now right).
  destruct (slice_window w p L radius) as [win|e] eqn:Hwin.
  - simpl. destruct (strips_to_empty win); now apply IH.
  - exfalso. apply (Hno (p, L) e); [now left | exact Hwin].
Qed.

(** [search_and_slice], once [run_rg] has returned its matches. *)
Lemma search_and_slice_after (root : Path) (pattern : string) (max_hits radius : Z)
    (evs : list event) (matches : list rg_match) :
  run_rg w root pattern max_hits DEFAULT_EXCLUDE_GLOBS = (evs, Ok matches) ->
  search_and_slice w root pattern max_hits radius =
    (evs, collect_hits w radius matches []).
Proof.
  intros Hrun. unfold search_and_slice. rewrite (bind_ok _ _ _ _ Hrun).
  destruct (Z.eqb_spec (len matches) 0) as [E|_]; simpl.
  - apply len_zero_iff in E. subst matches. simpl. now rewrite app_nil_r.
  - now rewrite app_nil_r.
Qed.

(** C6.  Given the matches of the decoder, [search_and_slice] returns
    exactly when slicing no match raises.  Whatever it returns has at
    most as many hits as there are matches; no hit has an empty or a
    blank window; and the hits are exactly the matches whose window is
    not blank, in the decoder's order and as often as they occur. *)
Theorem search_and_slice_filters (root : Path) (pattern : string)
    (max_hits radius : Z) (evs : list event) (matches : list rg_match) :
  run_rg w root pattern max_hits DEFAULT_EXCLUDE_GLOBS = (evs, Ok matches) ->
  ((exists hits, search_and_slice w root pattern max_hits radius = (evs, Ok hits)) <->
   (forall m e, In m matches -> slice_window w (fst m) (snd m) radius <> Raise e)) /\
  (forall hits,
     search_and_slice w root pattern max_hits radius = (evs, Ok hits) ->
     len hits <= len matches /\
     Forall (fun h => window h <> "" /\ is_blank (window h) = false) hits /\
     map hit_match hits = filter (keeps_window w radius) matches /\
     Forall (fun h => slice_window w (file h) (line h) radius = Ok (window h)) hits).
Proof.
  intros Hrun. rewrite (search_and_slice_after _ _ _ _ _ _ Hrun).
  split; [split|].
  - intros (hits & H). inversion H as [Hc].
    destruct (collect_hits_returned radius matches [] hits Hc) as (_ & _ & _ & _ & Hno).
    exact Hno.
  - intros Hno. destruct (collect_hits_total radius matches Hno []) as (out & Hc).
    exists out. now rewrite Hc.
  - intros hits H. inversion H as [Hc].
    destruct (collect_hits_returned radius matches [] hits Hc)
      as (hs & E & Hm & Hall & _).
    simpl in E. subst hs.
    split; [|split; [|split; [exact Hm|]]].
    + unfold len. apply inj_le.
      rewrite <- (length_map hit_match hits), Hm. apply filter_length_le.
    + eapply Forall_impl; [|exact Hall]. intros h [_ Hb]. split; [|exact Hb].
      intros E. rewrite E in Hb. discriminate.
    + eapply Forall_impl; [|exact Hall]. now intros h [Hs _].
Qed.

End Orchestrator.

(** The search reports a match in [a.txt] and one under the path of a
    directory: [run_rg] returns the two matches, and [search_and_slice]
    returns no sequence at all, it raises. *)
Lemma search_and_slice_raises_on_directory :
  let out := (Demo.match_record "/repo/a.txt" "5" ++ nl
              ++ Demo.match_record "/repo/sub" "1" ++ nl)%string in
  let w := Demo.world out "" in
  snd (@run_rg Demo.lib w "/repo" "five" 8 (@DEFAULT_EXCLUDE_GLOBS)) =
    Ok [("/repo/a.txt", Int 5); ("/repo/sub", Int 1)] /\
  snd (@search_and_slice Demo.lib w "/repo" "five" 8 2) =
    Raise (IsADirectoryError "/repo/sub") /\
  (forall hits, snd (@search_and_slice Demo.lib w "/repo" "five" 8 2) <> Ok hits).
Proof.
  intros out w.
  assert (E : snd (@search_and_slice Demo.lib w "/repo" "five" 8 2) =
              Raise (IsADirectoryError "/repo/sub")) by reflexivity.
  split; [vm_compute; reflexivity|]. split; [exact E|].
  intros hits H. rewrite E in H. discriminate H.
Qed.

(** The same with a file that cannot be read. *)
Example search_and_slice_raises_on_unreadable_file :
  snd (@search_and_slice Demo.lib
         (Demo.world (Demo.match_record "/repo/locked.txt" "1" ++ nl) "")
         "/repo" "five" 8 2) =
    Raise (PermissionError "[Errno 13] Permission denied: '/repo/locked.txt'").
Proof. reflexivity. Qed.

Lemma search_and_slice_filters_witness :
  let out := (Demo.match_record "/repo/sub" "0" ++ nl
              ++ Demo.match_record "/repo/a.txt" "5" ++ nl
              ++ Demo.match_record "/repo/gone.txt" "1" ++ nl
              ++ Demo.match_record "/repo/a.txt" "5" ++ nl)%string in
  let w := Demo.world out "" in
  let matches : list (@rg_match Demo.lib) :=
    [("/repo/sub", Int 0); ("/repo/a.txt", Int 5); ("/repo/gone.txt", Int 1);
     ("/repo/a.txt", Int 5)] in
  let win := "/repo/a.txt:5 (lines 3-7)
three
four
five
six
seven" in
  let hits := [@mkHit Demo.lib "/repo/a.txt" (Int 5) win;
               @mkHit Demo.lib "/repo/a.txt" (Int 5) win] in
  len hits <= len matches /\
  Forall (fun h => window h <> "" /\ is_blank (window h) = false) hits /\
  map hit_match hits = [("/repo/a.txt", Int 5); ("/repo/a.txt", Int 5)] /\
  Forall (fun h => slice_window w (file h) (line h) 2 = Ok (window h)) hits.
Proof.
  intros out w matches win hits.
  exact (proj2 (@search_and_slice_filters Demo.lib w "/repo" "five" 8 2
                  [Spawned (@rg_command Demo.lib "/repo" "five" (@DEFAULT_EXCLUDE_GLOBS))]
                  matches eq_refl)
               hits eq_refl).
Defined.

(* ================================================================== *)
(** ** The entry point *)
(* ================================================================== *)

Section Main.
Context `{py : PyLib}.
Variable w : World.

Lemma print_hits_events (total : Z) (hits : list Hit) :
  forall i,
    print_hits i total hits =
      (flat_map (fun '(j, h) => [Printed (banner j total); Printed (window h)])
                (enumerate i hits),
       Ok tt).
Proof.
  induction hits as [|h hits IH]; intros i; simpl; [reflexivity|].
  now rewrite IH.
Qed.

(** What [main] prints once it has the hits, and the status it returns. *)
Lemma report_prints (hits : list Hit) :
  report hits =
    (match hits with
     | [] => [Printed "No matches."]
     | _ => hit_lines hits
     end, Ok 0).
Proof.
  unfold report, hit_lines.
  destruct hits as [|h hits]; [reflexivity|].
  destruct (Z.eqb_spec (len (h :: hits)) 0) as [E|_].
  - apply len_zero_iff in E. discriminate.
  - rewrite print_hits_events. simpl. now rewrite app_nil_r.
Qed.

Lemma main_usage (argv : list string) :
  len argv < 3 ->
  main w argv = ([Printed usage_line; Printed example_line], Ok 2).
Proof.
  intros H. unfold main. now destruct (Z.ltb_spec (len argv) 3); [|lia].
Qed.

Lemma main_runs (argv : list string) :
  3 <= len argv ->
  main w argv =
    match int_arg argv 3 8, int_arg argv 4 60 with
    | Raise e, _ => ([], Raise e)
    | Ok _, Raise e => ([], Raise e)
    | Ok max_hits, Ok radius =>
        bind (search_and_slice w (Path_resolve (Path_of_str (nth 1 argv "")))
                (nth 2 argv "") max_hits radius) report
    end.
Proof.
  intros H. unfold main. destruct (Z.ltb_spec (len argv) 3); [lia|].
  destruct (int_arg argv 3 8) as [mh|e]; [|reflexivity]. simpl.
  destruct (int_arg argv 4 60) as [r|e]; [|reflexivity]. simpl.
  now destruct (bind _ _).
Qed.

(** The k-th pair of [enumerate(xs, start=i)] carries the ordinal
    [i + k]. *)
Lemma enumerate_nth {A} (xs : list A) :
  forall (i : Z) (k : nat),
    nth_error (enumerate i xs) k =
    option_map (fun x => (i + Z.of_nat k, x)) (nth_error xs k).
Proof.
  induction xs as [|x xs IH]; intros i k.
  - now destruct k.
  - destruct k as [|k]; simpl.
    + now rewrite Z.add_0_r.
    + rewrite IH. destruct (nth_error xs k); simpl; [|reflexivity].
      now replace (i + 1 + Z.of_nat k) with (i + Z.of_nat (S k)) by lia.
Qed.

(** What [main] does once the optional arguments are read and the search
    has returned its hits. *)
Lemma main_reports (argv : list string) (max_hits radius : Z)
    (evs : list event) (hits : list Hit) :
  3 <= len argv ->
  int_arg argv 3 8 = Ok max_hits ->
  int_arg argv 4 60 = Ok radius ->
  search_and_slice w (Path_resolve (Path_of_str (nth 1 argv "")))
    (nth 2 argv "") max_hits radius = (evs, Ok hits) ->
  main w argv =
    (evs ++ match hits with
            | [] => [Printed "No matches."]
            | _ => hit_lines hits
            end, Ok 0).
Proof.
  intros Hlen Hm Hr Hs.
  rewrite (main_runs argv Hlen), Hm, Hr, (bind_ok _ _ _ _ Hs), report_prints.
  reflexivity.
Qed.

(** C9.  [main] returns status 2 exactly when [sys.argv] has fewer than
    three entries (fewer than two positional values), after printing the
    two lines of the usage message.  Given at least two positional values,
    a run that completes returns 0: the optional arguments were read, the
    search returned its hits, and after whatever the search printed [main]
    prints exactly ["No matches."] when there is no hit, and otherwise,
    for the hit of ordinal [i] (counted from 1) among [n] hits, a newline
    and the banner [===== HIT i/n =====], then the window. *)
Theorem main_exit_status (argv : list string) :
  (snd (main w argv) = Ok 2 <-> len argv < 3) /\
  (len argv < 3 ->
     main w argv =
       ([Printed "Usage: python repo_slice.py <repo_path> <pattern> [max_hits] [radius]";
         Printed ("Example: python repo_slice.py . "
                  ++ String (ascii_of_nat 34) "SimPilot"
                  ++ String (ascii_of_nat 34) " 5 40")%string],
        Ok 2)) /\
  (3 <= len argv ->
     forall status, snd (main w argv) = Ok status ->
       status = 0 /\
       exists max_hits radius evs hits,
         int_arg argv 3 8 = Ok max_hits /\
         int_arg argv 4 60 = Ok radius /\
         search_and_slice w (Path_resolve (Path_of_str (nth 1 argv "")))
           (nth 2 argv "") max_hits radius = (evs, Ok hits)) /\
  (3 <= len argv ->
     forall max_hits radius evs hits,
       int_arg argv 3 8 = Ok max_hits ->
       int_arg argv 4 60 = Ok radius ->
       search_and_slice w (Path_resolve (Path_of_str (nth 1 argv "")))
         (nth 2 argv "") max_hits radius = (evs, Ok hits) ->
       main w argv =
         (evs ++ match hits with
                 | [] => [Printed "No matches."]
                 | _ =>
                     flat_map
                       (fun '(i, h) =>
                          [Printed (nl ++ "===== HIT " ++ str_of_int i ++ "/"
                                      ++ str_of_int (len hits) ++ " =====")%string;
                           Printed (window h)])
                       (enumerate 1 hits)
                 end, Ok 0) /\
       (forall k h, nth_error hits k = Some h ->
          nth_error (enumerate 1 hits) k = Some (Z.of_nat k + 1, h))).
Proof.
  assert (Hrun : 3 <= len argv ->
     forall status, snd (main w argv) = Ok status ->
       status = 0 /\
       exists max_hits radius evs hits,
         int_arg argv 3 8 = Ok max_hits /\
         int_arg argv 4 60 = Ok radius /\
         search_and_slice w (Path_resolve (Path_of_str (nth 1 argv "")))
           (nth 2 argv "") max_hits radius = (evs, Ok hits)).
  { intros Hlen status. rewrite (main_runs argv Hlen).
    destruct (int_arg argv 3 8) as [mh|e]; [|discriminate].
    destruct (int_arg argv 4 60) as [r|e]; [|discriminate].
    destruct (search_and_slice w _ _ mh r) as [evs [hits|e]] eqn:Hs;
      [|discriminate].
    rewrite (bind_ok _ _ _ _ eq_refl), report_prints. simpl.
    intros H. inversion H. split; [reflexivity|].
    exists mh, r, evs, hits. auto. }
  split; [|split; [|split]].
  - split.
    + intros H. destruct (Z.lt_ge_cases (len argv) 3) as [|Hge]; [assumption|].
      destruct (Hrun Hge 2 H) as [E _]. discriminate.
    + intros H. now rewrite (main_usage argv H).
  - intros H. now rewrite (main_usage argv H).
  - exact Hrun.
  - intros Hlen mh r evs hits Hm Hr Hs. split.
    + now rewrite (main_reports argv mh r evs hits Hlen Hm Hr Hs).
    + intros k h Hk. rewrite enumerate_nth, Hk. cbn [option_map].
      now rewrite Z.add_comm.
Qed.

End Main.

Lemma main_exit_status_witness :
  let out := (Demo.match_record "/repo/a.txt" "5" ++ nl
              ++ Demo.match_record "/repo/a.txt" "9" ++ nl)%string in
  let cmd := @rg_command Demo.lib "/repo" "five" (@DEFAULT_EXCLUDE_GLOBS) in
  @main Demo.lib (Demo.world out "") ["repo_slice.py"; "/repo"; "five"; "8"; "1"] =
    ([Spawned cmd;
      Printed "
===== HIT 1/2 =====";
      Printed "/repo/a.txt:5 (lines 4-6)
four
five
six";
      Printed "
===== HIT 2/2 =====";
      Printed "/repo/a.txt:9 (lines 8-10)
eight
nine
ten"], Ok 0)
  /\
  @main Demo.lib (Demo.world "" "") ["repo_slice.py"; "/repo"; "five"] =
    ([Spawned cmd; Printed "No matches."], Ok 0)
  /\
  @main Demo.lib (Demo.world "" "") ["repo_slice.py"; "/repo"] =
    ([Printed "Usage: python repo_slice.py <repo_path> <pattern> [max_hits] [radius]";
      Printed ("Example: python repo_slice.py . "
               ++ String (ascii_of_nat 34) "SimPilot"
               ++ String (ascii_of_nat 34) " 5 40")%string], Ok 2).
Proof.
  intros out cmd.
  split; [|split].
  - exact (proj1 (proj2 (proj2 (proj2
             (@main_exit_status Demo.lib (Demo.world out "")
                ["repo_slice.py"; "/repo"; "five"; "8"; "1"])))
             ltac:(vm_compute; discriminate) 8 1 [Spawned cmd]
             [@mkHit Demo.lib "/repo/a.txt" (Int 5) "/repo/a.txt:5 (lines 4-6)
four
five
six";
              @mkHit Demo.lib "/repo/a.txt" (Int 9) "/repo/a.txt:9 (lines 8-10)
eight
nine
ten"]
             eq_refl eq_refl eq_refl)).
  - exact (proj1 (proj2 (proj2 (proj2
             (@main_exit_status Demo.lib (Demo.world "" "")
                ["repo_slice.py"; "/repo"; "five"])))
             ltac:(vm_compute; discriminate) 8 60 [Spawned cmd] []
             eq_refl eq_refl eq_refl)).
  - exact (proj1 (proj2 (@main_exit_status Demo.lib (Demo.world "" "")
                           ["repo_slice.py"; "/repo"]))
             ltac:(vm_compute; reflexivity)).
Defined.

(** A pattern that matches nothing: the whole output of the run is the
    one line. *)
Example main_no_matches :
  snd (@main Demo.lib (Demo.world "" "") ["repo_slice.py"; "/repo"; "zzz"]) = Ok 0 /\
  filter (fun ev => match ev with Printed _ => true | Spawned _ => false end)
         (fst (@main Demo.lib (Demo.world "" "") ["repo_slice.py"; "/repo"; "zzz"]))
  = [Printed "No matches."].
Proof. split; vm_compute; reflexivity. Qed.

(** One positional value only: the usage message and status 2. *)
Example main_one_argument :
  @main Demo.lib (Demo.world "" "") ["repo_slice.py"; "/repo"]
  = ([Printed (@usage_line); Printed (@example_line)], Ok 2).
Proof. vm_compute. reflexivity. Qed.

(** A repository whose [a.txt] has ten lines, a pattern matching line 5,
    [max_hits = 1] and [radius = 2]: one hit, whose header reports the
    lines 3-7 and whose body is the lines 3 to 7 of the file. *)
Example main_end_to_end :
  let out := (Demo.begin_record "/repo/a.txt" ++ nl
              ++ Demo.match_record "/repo/a.txt" "5" ++ nl
              ++ Demo.match_record "/repo/a.txt" "9" ++ nl)%string in
  @main Demo.lib (Demo.world out "") ["repo_slice.py"; "/repo"; "five"; "1"; "2"]
  = ([Spawned (@rg_command Demo.lib "/repo" "five" (@DEFAULT_EXCLUDE_GLOBS));
      Printed (nl ++ "===== HIT 1/1 =====");
      Printed ("/repo/a.txt:5 (lines 3-7)" ++ nl
               ++ join nl ["three"; "four"; "five"; "six"; "seven"])%string],
     Ok 0).
Proof. vm_compute. reflexivity. Qed.

(* ================================================================== *)
(** ** Further properties of the search invocation and the decoder *)
(* ================================================================== *)

Lemma spawn_count_app (a b : list event) :
  spawn_count (a ++ b) = (spawn_count a + spawn_count b)%nat.
Proof. unfold spawn_count. now rewrite filter_app, length_app. Qed.

Lemma printed_app (a b : list event) : printed (a ++ b) = printed a ++ printed b.
Proof.
  induction a as [|[t|c] a IH]; simpl; [reflexivity | now rewrite IH | exact IH].
Qed.

Section MoreRunRg.
Context `{py : PyLib}.

Lemma glob_flags (globs : list string) :
  forall cmd,
    fold_left (fun cmd g => cmd ++ ["--glob"; g]) globs cmd =
    cmd ++ flat_map (fun g => ["--glob"; g]) globs.
Proof.
  induction globs as [|g globs IH]; intros cmd; simpl.
  - now rewrite app_nil_r.
  - rewrite IH. now rewrite <- app_assoc.
Qed.

Lemma len_glob_flags (globs : list string) :
  len (flat_map (fun g => ["--glob"; g]) globs) = 2 * len globs.
Proof.
  unfold len. induction globs as [|g globs IH]; [reflexivity|].
  cbn [flat_map app length]. lia.
Qed.

(** X1.  The command line of [run_rg] is the four fixed arguments, then
    one [--glob] flag before every exclusion glob, in the order of the
    globs, then the pattern and the repository root as the last two
    arguments: [6 + 2 * len(exclude_globs)] arguments in all. *)
Theorem rg_command_layout (root : Path) (pattern : string) (globs : list string) :
  rg_command root pattern globs =
    ["rg"; "--json"; "--smart-case"; "--text"]
      ++ flat_map (fun g => ["--glob"; g]) globs
      ++ [pattern; str_of_Path root]
  /\ len (rg_command root pattern globs) = 6 + 2 * len globs.
Proof.
  assert (E : rg_command root pattern globs =
    ["rg"; "--json"; "--smart-case"; "--text"]
      ++ flat_map (fun g => ["--glob"; g]) globs
      ++ [pattern; str_of_Path root]).
  { unfold rg_command. rewrite glob_flags. now rewrite <- app_assoc. }
  split; [exact E|]. rewrite E. rewrite !len_app, len_glob_flags.
  unfold len. cbn [length]. lia.
Qed.

(** The traces of [run_rg]: nothing; the spawn alone; or the spawn and
    one call of [print], with the stripped standard error of a process
    whose standard output was blank. *)
Lemma run_rg_trace (w : World) (root : Path) (pattern : string)
    (max_hits : Z) (exclude_globs : list string) :
  exists tail,
    fst (run_rg w root pattern max_hits exclude_globs) =
      (if path_exists w root && negb (is_blank pattern)
       then [Spawned (rg_command root pattern exclude_globs)] else []) ++ tail /\
    (tail = [] \/
     exists proc,
       runner w (rg_command root pattern exclude_globs) = Ok proc /\
       is_blank (or_empty (stdout proc)) = true /\
       is_blank (or_empty (stderr proc)) = false /\
       tail = [Printed (strip (or_empty (stderr proc)))]).
Proof.
  destruct (path_exists w root) eqn:Hroot.
  - destruct (is_blank pattern) eqn:Hpat.
    + unfold run_rg. rewrite Hroot, strips_to_empty_blank, Hpat. simpl.
      exists []. auto.
    + rewrite (run_rg_spawns _ _ _ _ _ Hroot Hpat).
      destruct (runner w _) as [proc|e] eqn:Hrun; simpl.
      * destruct (is_blank (or_empty (stdout proc))) eqn:Hout; simpl;
          [destruct (is_blank (or_empty (stderr proc))) eqn:Herr; simpl|].
        -- exists []. auto.
        -- eexists. split; [reflexivity|]. right. exists proc. auto.
        -- exists []. auto.
      * exists []. auto.
  - rewrite (run_rg_missing_root _ _ _ _ _ Hroot). simpl. exists []. auto.
Qed.

(** X2.  [run_rg] spawns the search process exactly once when the root
    exists and the pattern is not blank, and not at all otherwise; the
    command it spawns is the one it built; it calls [print] at most once
    (with a text that can hold several lines), and what it then prints is
    the stripped standard error of a process whose standard output was
    blank and whose standard error was not. *)
Theorem run_rg_spawns_once (w : World) (root : Path) (pattern : string)
    (max_hits : Z) (exclude_globs : list string) :
  let evs := fst (run_rg w root pattern max_hits exclude_globs) in
  spawn_count evs =
    (if path_exists w root && negb (is_blank pattern) then 1 else 0)%nat /\
  (forall cmd, In (Spawned cmd) evs -> cmd = rg_command root pattern exclude_globs) /\
  (length (printed evs) <= 1)%nat /\
  (forall text, In (Printed text) evs ->
     exists proc,
       runner w (rg_command root pattern exclude_globs) = Ok proc /\
       is_blank (or_empty (stdout proc)) = true /\
       is_blank (or_empty (stderr proc)) = false /\
       text = strip (or_empty (stderr proc))).
Proof.
  intros evs. subst evs.
  destruct (run_rg_trace w root pattern max_hits exclude_globs) as (tail & -> & Ht).
  rewrite spawn_count_app, printed_app, length_app.
  assert (Hsp : forall t, ~ In (Printed t)
            (if path_exists w root && negb (is_blank pattern)
             then [Spawned (rg_command root pattern exclude_globs)] else [])).
  { intros t. destruct (path_exists w root && negb (is_blank pattern));
      simpl; [intros [H|[]]; discriminate | intros []]. }
  assert (Hcmd : forall cmd, In (Spawned cmd)
            (if path_exists w root && negb (is_blank pattern)
             then [Spawned (rg_command root pattern exclude_globs)] else []) ->
            cmd = rg_command root pattern exclude_globs).
  { intros cmd. destruct (path_exists w root && negb (is_blank pattern));
      simpl; [intros [H|[]]; now inversion H | intros []]. }
  destruct Ht as [-> | (proc & Hrun & Hout & Herr & ->)].
  - rewrite app_nil_r.
    split; [destruct (path_exists w root && negb (is_blank pattern)); reflexivity|].
    split; [exact Hcmd|].
    split; [destruct (path_exists w root && negb (is_blank pattern)); simpl; lia|].
    intros text H. now apply Hsp in H.
  - split; [destruct (path_exists w root && negb (is_blank pattern)); reflexivity|].
    split.
    { intros cmd H. apply in_app_or in H as [H | [H | []]];
        [now apply Hcmd | discriminate]. }
    split; [destruct (path_exists w root && negb (is_blank pattern)); simpl; lia|].
    intros text H. apply in_app_or in H as [H | [H | []]]; [now apply Hsp in H|].
    inversion H; subst text. exists proc. auto.
Qed.

(** X4.  When the standard output of the search process is not blank,
    its standard error is dropped: [run_rg] prints nothing and its result
    is the decoding of the output alone. *)
Theorem run_rg_drops_stderr (w : World) (root : Path) (pattern : string)
    (max_hits : Z) (exclude_globs : list string) (proc : CompletedProcess) :
  path_exists w root = true ->
  is_blank pattern = false ->
  runner w (rg_command root pattern exclude_globs) = Ok proc ->
  is_blank (or_empty (stdout proc)) = false ->
  run_rg w root pattern max_hits exclude_globs =
    ([Spawned (rg_command root pattern exclude_globs)],
     decode_lines max_hits (splitlines (or_empty (stdout proc))) []) /\
  printed (fst (run_rg w root pattern max_hits exclude_globs)) = [].
Proof.
  intros Hroot Hpat Hrun Hout.
  rewrite (run_rg_spawns _ _ _ _ _ Hroot Hpat), Hrun, Hout. now split.
Qed.

(** X5.  Whatever the requested maximum, [run_rg] returns at most
    [max(max_hits, 1)] matches. *)
Theorem run_rg_cap_any (w : World) (root : Path) (pattern : string)
    (max_hits : Z) (exclude_globs : list string) (evs : list event)
    (res : list rg_match) :
  run_rg w root pattern max_hits exclude_globs = (evs, Ok res) ->
  len res <= Z.max max_hits 1.
Proof.
  intros H. destruct (run_rg_returns _ _ _ _ _ _ _ H) as [-> | (lines & Hdec)].
  - unfold len. simpl. lia.
  - apply (decode_lines_bound _ _ _ _ Hdec). now right.
Qed.

(** X6.  A blank line, and a record that is a JSON object whose [type]
    is not ["match"] (whatever else it holds), are skipped: the loop goes
    on as if the line were not there. *)
Theorem decoder_ignores_other_records (max_hits : Z) (before after : list string)
    (ln : string) (hits : list rg_match) :
  is_blank ln = true \/
  (exists obj, json_loads ln = Loaded obj /\ is_object obj = true /\
               field obj "type" <> PStr "match") ->
  decode_line ln = Ok None /\
  decode_lines max_hits (before ++ ln :: after) hits =
    decode_lines max_hits (before ++ after) hits.
Proof.
  intros H.
  assert (Hskip : decode_line ln = Ok None).
  { destruct H as [Hb | (obj & Hl & Ho & Hty)].
    - now apply decode_line_blank.
    - unfold decode_line. destruct (strips_to_empty ln); [reflexivity|].
      rewrite Hl. destruct obj as [| | | | | | d]; try discriminate.
      simpl in *. destruct (dict_get d "type") as [| | | | t | |]; simpl; auto.
      destruct (String.eqb_spec t "match"); simpl; [congruence | reflexivity]. }
  split; [exact Hskip|]. now apply decode_lines_skip.
Qed.

(** X7.  A match record that names the file [text] and the line [n] is
    decoded to the pair [(Path(text), n)]; alone in the output, it is
    the result. *)
Theorem decoder_reads_match (max_hits : Z) (ln : string) (obj : pyval)
    (text : string) (n : intlike) :
  is_blank ln = false ->
  json_loads ln = Loaded obj ->
  is_match_of obj text n ->
  decode_line ln = Ok (Some (Path_of_str text, n)) /\
  decode_lines max_hits [ln] [] = Ok [(Path_of_str text, n)].
Proof.
  intros Hb Hl Hm.
  assert (E : decode_line ln = Ok (Some (Path_of_str text, n)))
    by exact (decode_line_match ln obj text n Hb Hl Hm).
  split; [exact E|]. simpl. rewrite E.
  match goal with
  | |- (if ?c then _ else _) = _ => now destruct c
  end.
Qed.

(** X8.  When no line of the output raises, the decoder returns the
    matches of the lines in the order of the output, cut after the first
    [max(max_hits, 1)] of them. *)
Theorem decoder_returns_first_matches (max_hits : Z) (lines : list string) :
  (forall ln e, In ln lines -> decode_line ln <> Raise e) ->
  decode_lines max_hits lines [] =
    Ok (firstn (Z.to_nat (Z.max max_hits 1)) (flat_map line_yield lines)).
Proof.
  intros Hok.
  rewrite (decode_lines_first_matches max_hits lines Hok []).
  - simpl. now rewrite Z.sub_0_r.
  - unfold len. simpl. lia.
Qed.

End MoreRunRg.

Lemma run_rg_drops_stderr_witness :
  let out := (Demo.match_record "/repo/a.txt" "5" ++ nl)%string in
  let w := Demo.world out "warning" in
  @run_rg Demo.lib w "/repo" "five" 8 [] =
    ([Spawned (@rg_command Demo.lib "/repo" "five" [])],
     @decode_lines Demo.lib 8 (splitlines (or_empty (Some out))) []) /\
  printed (fst (@run_rg Demo.lib w "/repo" "five" 8 [])) = [].
Proof.
  intros out w.
  apply (@run_rg_drops_stderr Demo.lib w "/repo" "five" 8 []
           {| stdout := Some out; stderr := Some "warning" |}).
  - reflexivity.
  - reflexivity.
  - reflexivity.
  - vm_compute. reflexivity.
Defined.

Lemma run_rg_cap_any_witness :
  len [(("/repo/a.txt" : @Path Demo.lib), Int 5)] <= Z.max 0 1.
Proof.
  apply (@run_rg_cap_any Demo.lib
           (Demo.world (Demo.match_record "/repo/a.txt" "5" ++ nl
                          ++ Demo.match_record "/repo/a.txt" "7" ++ nl) "")
           "/repo" "five" 0 []
           [Spawned (@rg_command Demo.lib "/repo" "five" [])]).
  vm_compute. reflexivity.
Defined.

Lemma decoder_ignores_other_records_witness :
  let m5 := Demo.match_record "/repo/a.txt" "5" in
  let other := Demo.q "{'type':'end','data':5}" in
  @decode_line Demo.lib other = Ok None /\
  @decode_lines Demo.lib 8 ([m5] ++ other :: [m5]) [] =
    @decode_lines Demo.lib 8 ([m5] ++ [m5]) [].
Proof.
  intros m5 other.
  apply (@decoder_ignores_other_records Demo.lib 8 [m5] [m5] other []).
  right. exists (PDict [("data", PInt 5); ("type", PStr "end")]).
  split; [vm_compute; reflexivity|]. split; [reflexivity|].
  vm_compute. discriminate.
Defined.

Lemma decoder_reads_match_witness :
  @decode_line Demo.lib (Demo.q "{'type':'match','data':{'path':{'text':'a'},'line_number':5}}")
    = Ok (Some ("a", Int 5)) /\
  @decode_lines Demo.lib 8
     [Demo.q "{'type':'match','data':{'path':{'text':'a'},'line_number':5}}"] []
    = Ok [("a", Int 5)].
Proof.
  apply (@decoder_reads_match Demo.lib 8
           (Demo.q "{'type':'match','data':{'path':{'text':'a'},'line_number':5}}")
           (PDict [("data", PDict [("line_number", PInt 5);
                                   ("path", PDict [("text", PStr "a")])]);
                   ("type", PStr "match")])
           "a" (Int 5)).
  - reflexivity.
  - vm_compute. reflexivity.
  - unfold is_match_of. simpl. auto.
Defined.

Lemma decoder_returns_first_matches_witness :
  let lines := [Demo.begin_record "a"; Demo.match_record "a" "5";
                Demo.match_record "b" "7"; Demo.match_record "c" "9"] in
  @decode_lines Demo.lib 2 lines [] =
    Ok (firstn (Z.to_nat (Z.max 2 1)) (flat_map (@line_yield Demo.lib) lines)).
Proof.
  intros lines.
  apply (@decoder_returns_first_matches Demo.lib 2 lines).
  intros ln e [<- | [<- | [<- | [<- | []]]]]; vm_compute; discriminate.
Defined.

(* ================================================================== *)
(** ** Further properties of the slicer and the orchestrator *)
(* ================================================================== *)

(** The length of a slice between bounds that are not negative. *)
Lemma len_slice_clamped {A} (xs : list A) (i j : Z) :
  0 <= i -> 0 <= j ->
  len (slice xs i j) = Z.max 0 (Z.min j (len xs) - Z.min i (len xs)).
Proof.
  intros Hi Hj. unfold slice, slice_bound.
  destruct (Z.ltb_spec i 0); [lia|]. destruct (Z.ltb_spec j 0); [lia|].
  unfold len. rewrite length_firstn, length_skipn. lia.
Qed.

Section MoreSlicing.
Context `{py : PyLib}.
Variable w : World.


(** A window that is not blank was cut from a regular file with at least
    one line, around a center line of at least 1. *)
Lemma slice_window_kept (p : Path) (L : intlike) (R : Z) (win : string) :
  slice_window w p L R = Ok win ->
  is_blank win = false ->
  1 <= int_val L /\
  exists text,
    fs w p = Some (File text) /\ text <> "" /\
    win = (window_header p L (Z.max (int_val L - 1 - R) 0)
             (Z.min (int_val L - 1 + R + 1) (len (splitlines text)))
           ++ nl ++ join nl (slice (splitlines text)
                               (Z.max (int_val L - 1 - R) 0)
                               (Z.min (int_val L - 1 + R + 1) (len (splitlines text)))))%string.
Proof.
  intros Hs Hb.
  assert (Hne : win <> "") by (intros ->; discriminate).
  destruct (fs w p) as [[text| |e0]|] eqn:Hfs.
  - destruct (Z.le_gt_cases (int_val L) 0) as [HL|HL].
    + unfold slice_window in Hs. rewrite (path_exists_file w _ _ Hfs) in Hs.
      simpl in Hs. destruct (Z.leb_spec (int_val L) 0); [|lia].
      inversion Hs. congruence.
    + destruct (splitlines text) as [|l ls] eqn:Hlines.
      * unfold slice_window, read_text in Hs.
        rewrite (path_exists_file w _ _ Hfs), Hfs in Hs. simpl in Hs.
        destruct (Z.leb_spec (int_val L) 0); [lia|]. simpl in Hs.
        rewrite Hlines in Hs. simpl in Hs. inversion Hs. congruence.
      * split; [lia|]. exists text. split; [reflexivity|]. split.
        -- intros ->. discriminate.
        -- assert (Hnn : splitlines text <> []) by (rewrite Hlines; discriminate).
           rewrite (slice_window_reads w p text L R Hfs Hnn) in Hs by lia.
           now inversion Hs.
  - unfold slice_window, read_text in Hs.
    rewrite (path_exists_file w _ _ Hfs), Hfs in Hs. simpl in Hs.
    destruct (int_val L <=? 0); simpl in Hs; [inversion Hs; congruence | discriminate].
  - unfold slice_window, read_text in Hs.
    rewrite (path_exists_file w _ _ Hfs), Hfs in Hs. simpl in Hs.
    destruct (int_val L <=? 0); simpl in Hs; [inversion Hs; congruence | discriminate].
  - unfold slice_window, path_exists in Hs. rewrite Hfs in Hs. simpl in Hs.
    inversion Hs. congruence.
Qed.

(** X10.  With a radius [R >= 0] the body of a window never has more than
    [2R + 1] lines, and it has exactly that many, the lines [L-R .. L+R],
    when these all exist in the file. *)
Theorem slice_window_size (p : Path) (text : string) (L : intlike) (R : Z) :
  fs w p = Some (File text) ->
  splitlines text <> [] ->
  1 <= int_val L ->
  0 <= R ->
  let lines := splitlines text in
  let start := Z.max (int_val L - 1 - R) 0 in
  let end_ := Z.min (int_val L - 1 + R + 1) (len lines) in
  slice_window w p L R =
    Ok (window_header p L start end_ ++ nl ++ join nl (slice lines start end_))%string /\
  len (slice lines start end_) <= 2 * R + 1 /\
  (R < int_val L -> int_val L + R <= len lines ->
     len (slice lines start end_) = 2 * R + 1 /\
     start + 1 = int_val L - R /\ end_ = int_val L + R).
Proof.
  intros Hfs Hne HL HR lines start end_.
  split; [exact (slice_window_reads w p text L R Hfs Hne HL)|].
  pose proof (len_nonneg lines) as Hn.
  rewrite (len_slice_clamped lines start end_) by (subst start end_; lia).
  subst start end_. split; [lia|]. intros H1 H2. lia.
Qed.

(** What the loop of [search_and_slice] returns, when it returns: the
    results it started from, then one hit per kept match. *)
Lemma collect_hits_ok (radius : Z) (matches : list rg_match) :
  forall results out,
    collect_hits w radius matches results = Ok out ->
    exists hits,
      out = results ++ hits /\
      (length hits <= length matches)%nat /\
      Forall (fun h => In (hit_match h) matches /\
                       slice_window w (file h) (line h) radius = Ok (window h) /\
                       is_blank (window h) = false) hits.
Proof.
  induction matches as [|[p L] matches IH]; intros results out H; simpl in H.
  - inversion H. exists []. rewrite app_nil_r. auto.
  - destruct (slice_window w p L radius) as [win|e] eqn:Hwin; [|discriminate].
    simpl in H. rewrite strips_to_empty_blank in H.
    destruct (is_blank win) eqn:Hb.
    + destruct (IH _ _ H) as (hits & -> & Hlen & Hall).
      exists hits. split; [reflexivity|]. split; [simpl; lia|].
      eapply Forall_impl; [|exact Hall]. intros h (Hin & Hs & Hnb).
      split; [now right | auto].
    + destruct (IH _ _ H) as (hits & -> & Hlen & Hall).
      exists (mkHit p L win :: hits). split; [now rewrite <- app_assoc|].
      split; [simpl; lia|]. constructor.
      * split; [now left | auto].
      * eapply Forall_impl; [|exact Hall]. intros h (Hin & Hs & Hnb).
        split; [now right | auto].
Qed.

(** What [search_and_slice] returns, when it returns, in terms of the
    matches of [run_rg]. *)
Lemma search_and_slice_ok (root : Path) (pattern : string) (max_hits radius : Z)
    (evs : list event) (hits : list Hit) :
  search_and_slice w root pattern max_hits radius = (evs, Ok hits) ->
  exists matches,
    run_rg w root pattern max_hits DEFAULT_EXCLUDE_GLOBS = (evs, Ok matches) /\
    (length hits <= length matches)%nat /\
    Forall (fun h => In (hit_match h) matches /\
                     slice_window w (file h) (line h) radius = Ok (window h) /\
                     is_blank (window h) = false) hits.
Proof.
  unfold search_and_slice. intros H.
  destruct (run_rg w root pattern max_hits DEFAULT_EXCLUDE_GLOBS)
    as [evs0 [matches|e]] eqn:Hrun; [|discriminate].
  rewrite (bind_ok _ _ _ _ eq_refl) in H. exists matches.
  destruct (Z.eqb_spec (len matches) 0) as [E|_]; simpl in H.
  - rewrite app_nil_r in H. inversion H; subst. split; [reflexivity|].
    split; [simpl; lia | constructor].
  - rewrite app_nil_r in H. inversion H as [[He Hc]]. subst evs0.
    split; [reflexivity|].
    destruct (collect_hits_ok radius matches [] hits Hc) as (hs & E & Hlen & Hall).
    simpl in E. subst hs. auto.
Qed.

(** X11.  For a requested maximum of at least 1, [search_and_slice] never
    returns more than [max_hits] hits. *)
Theorem search_and_slice_cap (root : Path) (pattern : string) (max_hits radius : Z)
    (evs : list event) (hits : list Hit) :
  1 <= max_hits ->
  search_and_slice w root pattern max_hits radius = (evs, Ok hits) ->
  len hits <= max_hits.
Proof.
  intros Hmax H.
  destruct (search_and_slice_ok _ _ _ _ _ _ H) as (matches & Hrun & Hlen & _).
  assert (Hm : len matches <= Z.max max_hits 1).
  { destruct (run_rg_returns _ _ _ _ _ _ _ Hrun) as [-> | (lines & Hdec)].
    - unfold len. simpl. lia.
    - apply (decode_lines_bound _ _ _ _ Hdec). now right. }
  unfold len in *. lia.
Qed.

(** X12.  Every hit [search_and_slice] returns comes from a match of
    [run_rg]; its line is at least 1; its file is a regular file whose
    text is not empty; and its window is what [slice_window] returns for
    it: the header, a newline and the sliced lines. *)
Theorem search_and_slice_hits (root : Path) (pattern : string) (max_hits radius : Z)
    (evs : list event) (hits : list Hit) :
  search_and_slice w root pattern max_hits radius = (evs, Ok hits) ->
  exists matches,
    run_rg w root pattern max_hits DEFAULT_EXCLUDE_GLOBS = (evs, Ok matches) /\
    Forall (fun h =>
      In (hit_match h) matches /\
      1 <= int_val (line h) /\
      exists text,
        fs w (file h) = Some (File text) /\ text <> "" /\
        let lines := splitlines text in
        let start := Z.max (int_val (line h) - 1 - radius) 0 in
        let end_ := Z.min (int_val (line h) - 1 + radius + 1) (len lines) in
        window h = (window_header (file h) (line h) start end_
                    ++ nl ++ join nl (slice lines start end_))%string) hits.
Proof.
  intros H.
  destruct (search_and_slice_ok _ _ _ _ _ _ H) as (matches & Hrun & _ & Hall).
  exists matches. split; [exact Hrun|].
  eapply Forall_impl; [|exact Hall]. intros h (Hin & Hs & Hnb).
  destruct (slice_window_kept _ _ _ _ Hs Hnb) as (HL & text & Hfs & Hne & Hwin).
  split; [exact Hin|]. split; [exact HL|]. exists text. auto.
Qed.

(** X13.  A match is dropped without a trace when its file does not
    exist, when its line is not positive, or when its file is empty: the
    loop goes on with the next match and the results unchanged. *)
Theorem collect_hits_drops (radius : Z) (p : Path) (L : intlike)
    (rest : list rg_match) (results : list Hit) :
  fs w p = None \/ int_val L <= 0 \/ fs w p = Some (File "") ->
  collect_hits w radius ((p, L) :: rest) results = collect_hits w radius rest results.
Proof.
  intros H.
  assert (E : slice_window w p L radius = Ok "").
  { unfold slice_window, path_exists, read_text.
    destruct H as [H | [H | H]].
    - now rewrite H.
    - destruct (fs w p); simpl; [|reflexivity].
      now destruct (Z.leb_spec (int_val L) 0); [|lia].
    - rewrite H. simpl. now destruct (int_val L <=? 0). }
  simpl. now rewrite E.
Qed.

(** X14.  A match that names a directory, with a line of at least 1,
    ends the loop with [IsADirectoryError]: the hits collected from the
    matches before it (whose paths can be read) are lost. *)
Theorem collect_hits_directory (radius : Z) (before : list rg_match) (p : Path)
    (L : intlike) (rest : list rg_match) :
  (forall m, In m before -> readable w (fst m) = true) ->
  fs w p = Some Dir ->
  1 <= int_val L ->
  forall results,
    collect_hits w radius (before ++ (p, L) :: rest) results =
      Raise (IsADirectoryError (str_of_Path p)).
Proof.
  intros Hbefore Hd HL.
  assert (E : slice_window w p L radius = Raise (IsADirectoryError (str_of_Path p))).
  { unfold slice_window, path_exists, read_text. rewrite Hd. simpl.
    now destruct (Z.leb_spec (int_val L) 0); [lia|]. }
  induction before as [|[q K] before IH]; intros results; simpl.
  - now rewrite E.
  - destruct (slice_window_returns w q K radius (Hbefore (q, K) (or_introl eq_refl)))
      as (win & Hwin).
    rewrite Hwin. simpl.
    assert (Hrest : forall m, In m before -> readable w (fst m) = true)
      by (intros m Hm; apply Hbefore; now right).
    destruct (strips_to_empty win); now apply IH.
Qed.

(** X23.  A match that names a file whose read raises (a file without
    read permission, say), with a line of at least 1, ends the loop with
    the error of the read: the hits collected from the matches before it
    are lost. *)
Theorem collect_hits_unreadable (radius : Z) (before : list rg_match) (p : Path)
    (L : intlike) (rest : list rg_match) (e : exn) :
  (forall m, In m before -> readable w (fst m) = true) ->
  fs w p = Some (Unreadable e) ->
  1 <= int_val L ->
  forall results,
    collect_hits w radius (before ++ (p, L) :: rest) results = Raise e.
Proof.
  intros Hbefore Hd HL.
  assert (E : slice_window w p L radius = Raise e).
  { unfold slice_window, path_exists, read_text. rewrite Hd. simpl.
    now destruct (Z.leb_spec (int_val L) 0); [lia|]. }
  induction before as [|[q K] before IH]; intros results; simpl.
  - now rewrite E.
  - destruct (slice_window_returns w q K radius (Hbefore (q, K) (or_introl eq_refl)))
      as (win & Hwin).
    rewrite Hwin. simpl.
    assert (Hrest : forall m, In m before -> readable w (fst m) = true)
      by (intros m Hm; apply Hbefore; now right).
    destruct (strips_to_empty win); now apply IH.
Qed.

Lemma search_and_slice_events (root : Path) (pattern : string) (max_hits radius : Z) :
  exists r,
    search_and_slice w root pattern max_hits radius =
      (fst (run_rg w root pattern max_hits DEFAULT_EXCLUDE_GLOBS), r).
Proof.
  unfold search_and_slice.
  destruct (run_rg w root pattern max_hits DEFAULT_EXCLUDE_GLOBS) as [evs [matches|e]].
  - rewrite (bind_ok _ _ _ _ eq_refl). simpl.
    destruct (len matches =? 0); simpl; rewrite app_nil_r; eauto.
  - simpl. eauto.
Qed.

(** X15.  Slicing performs no event: the trace of [search_and_slice] is
    the trace of [run_rg], whether it returns or raises. *)
Theorem search_and_slice_trace (root : Path) (pattern : string) (max_hits radius : Z) :
  fst (search_and_slice w root pattern max_hits radius) =
  fst (run_rg w root pattern max_hits DEFAULT_EXCLUDE_GLOBS).
Proof.
  destruct (search_and_slice_events root pattern max_hits radius) as (r & E).
  now rewrite E.
Qed.

End MoreSlicing.

Lemma slice_window_size_witness :
  @slice_window Demo.lib (Demo.world "" "") "/repo/a.txt" (Int 5) 2 =
    Ok (@window_header Demo.lib "/repo/a.txt" (Int 5) (Z.max (5 - 1 - 2) 0)
          (Z.min (5 - 1 + 2 + 1) (len (splitlines Demo.a_txt)))
        ++ nl ++ join nl (slice (splitlines Demo.a_txt) (Z.max (5 - 1 - 2) 0)
                            (Z.min (5 - 1 + 2 + 1) (len (splitlines Demo.a_txt)))))%string /\
  len (slice (splitlines Demo.a_txt) (Z.max (5 - 1 - 2) 0)
         (Z.min (5 - 1 + 2 + 1) (len (splitlines Demo.a_txt)))) <= 2 * 2 + 1 /\
  (2 < 5 -> 5 + 2 <= len (splitlines Demo.a_txt) ->
     len (slice (splitlines Demo.a_txt) (Z.max (5 - 1 - 2) 0)
            (Z.min (5 - 1 + 2 + 1) (len (splitlines Demo.a_txt)))) = 2 * 2 + 1 /\
     Z.max (5 - 1 - 2) 0 + 1 = 5 - 2 /\
     Z.min (5 - 1 + 2 + 1) (len (splitlines Demo.a_txt)) = 5 + 2).
Proof.
  apply (@slice_window_size Demo.lib (Demo.world "" "") "/repo/a.txt" Demo.a_txt (Int 5) 2).
  - reflexivity.
  - vm_compute. discriminate.
  - simpl. lia.
  - lia.
Defined.

Lemma search_and_slice_cap_witness :
  len [@mkHit Demo.lib "/repo/a.txt" (Int 5)
         ("/repo/a.txt:5 (lines 3-7)" ++ nl
          ++ join nl ["three"; "four"; "five"; "six"; "seven"])%string] <= 1.
Proof.
  apply (@search_and_slice_cap Demo.lib
           (Demo.world (Demo.match_record "/repo/a.txt" "5" ++ nl
                          ++ Demo.match_record "/repo/a.txt" "7" ++ nl) "")
           "/repo" "five" 1 2
           [Spawned (@rg_command Demo.lib "/repo" "five" (@DEFAULT_EXCLUDE_GLOBS))]).
  - lia.
  - reflexivity.
Defined.

Lemma search_and_slice_hits_witness :
  let w := Demo.world (Demo.match_record "/repo/a.txt" "5" ++ nl) "" in
  let hits := [@mkHit Demo.lib "/repo/a.txt" (Int 5)
                 ("/repo/a.txt:5 (lines 3-7)" ++ nl
                  ++ join nl ["three"; "four"; "five"; "six"; "seven"])%string] in
  exists matches,
    @run_rg Demo.lib w "/repo" "five" 8 (@DEFAULT_EXCLUDE_GLOBS) =
      ([Spawned (@rg_command Demo.lib "/repo" "five" (@DEFAULT_EXCLUDE_GLOBS))], Ok matches) /\
    Forall (fun h =>
      In (hit_match h) matches /\
      1 <= int_val (line h) /\
      exists text,
        fs w (file h) = Some (File text) /\ text <> "" /\
        let lines := splitlines text in
        let start := Z.max (int_val (line h) - 1 - 2) 0 in
        let end_ := Z.min (int_val (line h) - 1 + 2 + 1) (len lines) in
        window h = (window_header (file h) (line h) start end_
                    ++ nl ++ join nl (slice lines start end_))%string) hits.
Proof.
  intros w hits.
  apply (@search_and_slice_hits Demo.lib w "/repo" "five" 8 2).
  reflexivity.
Defined.

Lemma collect_hits_drops_witness :
  @collect_hits Demo.lib (Demo.world "" "") 2
     [("/repo/gone.txt", Int 3); ("/repo/a.txt", Int 5)] [] =
  @collect_hits Demo.lib (Demo.world "" "") 2 [("/repo/a.txt", Int 5)] [].
Proof.
  apply (@collect_hits_drops Demo.lib (Demo.world "" "") 2 "/repo/gone.txt" (Int 3)).
  left. reflexivity.
Defined.

Lemma collect_hits_directory_witness :
  @collect_hits Demo.lib (Demo.world "" "") 2
     ([("/repo/a.txt", Int 5)] ++ ("/repo/sub", Int 1) :: [("/repo/a.txt", Int 7)]) [] =
  Raise (IsADirectoryError "/repo/sub").
Proof.
  apply (@collect_hits_directory Demo.lib (Demo.world "" "") 2
           [("/repo/a.txt", Int 5)] "/repo/sub" (Int 1) [("/repo/a.txt", Int 7)]).
  - intros m [<- | []]. reflexivity.
  - reflexivity.
  - simpl. lia.
Defined.

Lemma collect_hits_unreadable_witness :
  @collect_hits Demo.lib (Demo.world "" "") 2
     ([("/repo/a.txt", Int 5)] ++ ("/repo/locked.txt", Int 1) :: [("/repo/a.txt", Int 7)]) [] =
  Raise (PermissionError "[Errno 13] Permission denied: '/repo/locked.txt'").
Proof.
  apply (@collect_hits_unreadable Demo.lib (Demo.world "" "") 2
           [("/repo/a.txt", Int 5)] "/repo/locked.txt" (Int 1) [("/repo/a.txt", Int 7)]).
  - intros m [<- | []]. reflexivity.
  - reflexivity.
  - simpl. lia.
Defined.

(* ================================================================== *)
(** ** Further properties of the entry point *)
(* ================================================================== *)

Section MoreMain.
Context `{py : PyLib}.
Variable w : World.

Lemma report_spawns_nothing (hits : list Hit) :
  spawn_count (fst (report hits)) = O.
Proof.
  rewrite report_prints. destruct hits as [|h hits]; [reflexivity|].
  unfold hit_lines. generalize (len (h :: hits)). generalize 1.
  induction (h :: hits) as [|x xs IH]; intros i total; [reflexivity|].
  simpl. apply IH.
Qed.

(** X16.  An optional argument that is not an integer ends [main] with
    [ValueError] before anything is printed or spawned, and before the
    repository root is looked at. *)
Theorem main_bad_integer (argv : list string) :
  3 <= len argv ->
  (4 <= len argv /\ int_of_str (nth 3 argv "") = None) \/
  (5 <= len argv /\ int_of_str (nth 4 argv "") = None) ->
  main w argv = ([], Raise ValueError).
Proof.
  intros Hlen H. rewrite (main_runs w argv Hlen). unfold int_arg, parse_int.
  destruct H as [[H4 Hbad] | [H5 Hbad]].
  - destruct (Z.geb_spec (len argv) (Z.of_nat 3 + 1)); [|lia].
    now rewrite Hbad.
  - destruct (Z.geb_spec (len argv) (Z.of_nat 3 + 1)); [|lia].
    destruct (Z.geb_spec (len argv) (Z.of_nat 4 + 1)); [|lia].
    rewrite Hbad. now destruct (int_of_str (nth 3 argv "")).
Qed.

(** X17.  Arguments after the radius are ignored: [main] behaves the
    same with and without them. *)
Theorem main_ignores_extra_arguments (argv extra : list string) :
  5 <= len argv ->
  main w (argv ++ extra) = main w argv.
Proof.
  intros Hlen.
  assert (Hl : 5 <= len (argv ++ extra)).
  { rewrite len_app. pose proof (len_nonneg extra). lia. }
  assert (Hn : forall i, (i < 5)%nat -> nth i (argv ++ extra) "" = nth i argv "").
  { intros i Hi. apply app_nth1. unfold len in Hlen. lia. }
  rewrite (main_runs w (argv ++ extra)) by lia.
  rewrite (main_runs w argv) by lia.
  unfold int_arg.
  rewrite !Hn by lia.
  destruct (Z.geb_spec (len (argv ++ extra)) (Z.of_nat 3 + 1)); [|lia].
  destruct (Z.geb_spec (len (argv ++ extra)) (Z.of_nat 4 + 1)); [|lia].
  destruct (Z.geb_spec (len argv) (Z.of_nat 3 + 1)); [|lia].
  destruct (Z.geb_spec (len argv) (Z.of_nat 4 + 1)); [|lia].
  reflexivity.
Qed.

(** X18.  With an existing root and an empty or blank pattern, [main]
    spawns nothing, prints the one line ["No matches."] and returns 0. *)
Theorem main_blank_pattern (argv : list string) (max_hits radius : Z) :
  3 <= len argv ->
  path_exists w (Path_resolve (Path_of_str (nth 1 argv ""))) = true ->
  is_blank (nth 2 argv "") = true ->
  int_arg argv 3 8 = Ok max_hits ->
  int_arg argv 4 60 = Ok radius ->
  main w argv = ([Printed "No matches."], Ok 0).
Proof.
  intros Hlen Hroot Hpat Hm Hr.
  rewrite (main_runs w argv Hlen), Hm, Hr.
  unfold search_and_slice, run_rg.
  now rewrite Hroot, strips_to_empty_blank, Hpat.
Qed.

(** X19.  When the search process ran and wrote nothing but blanks to its
    standard output, [main] prints the stripped standard error (when that
    is not blank), then ["No matches."], and returns 0: a failure of the
    tool ends like a search without matches. *)
Theorem main_tool_failure (argv : list string) (max_hits radius : Z)
    (proc : CompletedProcess) :
  3 <= len argv ->
  let root := Path_resolve (Path_of_str (nth 1 argv "")) in
  let pattern := nth 2 argv "" in
  let cmd := rg_command root pattern DEFAULT_EXCLUDE_GLOBS in
  path_exists w root = true ->
  is_blank pattern = false ->
  int_arg argv 3 8 = Ok max_hits ->
  int_arg argv 4 60 = Ok radius ->
  runner w cmd = Ok proc ->
  is_blank (or_empty (stdout proc)) = true ->
  main w argv =
    (Spawned cmd
       :: (if is_blank (or_empty (stderr proc)) then []
           else [Printed (strip (or_empty (stderr proc)))])
       ++ [Printed "No matches."],
     Ok 0).
Proof.
  intros Hlen root pattern cmd Hroot Hpat Hm Hr Hrun Hout.
  rewrite (main_runs w argv Hlen), Hm, Hr.
  fold root. fold pattern. unfold search_and_slice.
  rewrite (run_rg_spawns _ _ _ _ _ Hroot Hpat). fold cmd. rewrite Hrun, Hout.
  now destruct (is_blank (or_empty (stderr proc))).
Qed.

(** X20.  One run of [main] spawns at most one process. *)
Theorem main_spawns_at_most_once (argv : list string) :
  (spawn_count (fst (main w argv)) <= 1)%nat.
Proof.
  destruct (Z.lt_ge_cases (len argv) 3) as [Hlt | Hge].
  - rewrite (main_usage w argv Hlt). unfold spawn_count. cbn. lia.
  - rewrite (main_runs w argv) by lia.
    destruct (int_arg argv 3 8) as [mh|e]; [|unfold spawn_count; cbn; lia].
    destruct (int_arg argv 4 60) as [r|e]; [|unfold spawn_count; cbn; lia].
    destruct (search_and_slice_events w (Path_resolve (Path_of_str (nth 1 argv "")))
                (nth 2 argv "") mh r) as (res & E).
    rewrite E.
    assert (Hrun : (spawn_count (fst (run_rg w (Path_resolve (Path_of_str (nth 1 argv "")))
                      (nth 2 argv "") mh DEFAULT_EXCLUDE_GLOBS)) <= 1)%nat).
    { destruct (run_rg_trace w (Path_resolve (Path_of_str (nth 1 argv "")))
                  (nth 2 argv "") mh DEFAULT_EXCLUDE_GLOBS) as (tail & -> & Ht).
      rewrite spawn_count_app.
      destruct (path_exists w _ && negb (is_blank _));
        destruct Ht as [-> | (proc & _ & _ & _ & ->)]; unfold spawn_count; cbn; lia. }
    destruct res as [hits|e].
    + rewrite (bind_ok _ _ _ _ eq_refl). simpl.
      rewrite spawn_count_app, report_spawns_nothing. lia.
    + simpl. exact Hrun.
Qed.

End MoreMain.

Lemma main_bad_integer_witness :
  @main Demo.lib (Demo.world "" "") ["repo_slice.py"; "/nowhere"; "five"; "many"]
  = ([], Raise ValueError).
Proof.
  apply (@main_bad_integer Demo.lib).
  - vm_compute. discriminate.
  - left. split; [vm_compute; discriminate | reflexivity].
Defined.

Lemma main_ignores_extra_arguments_witness :
  @main Demo.lib (Demo.world "" "")
     (["repo_slice.py"; "/repo"; "five"; "1"; "2"] ++ ["--verbose"])
  = @main Demo.lib (Demo.world "" "") ["repo_slice.py"; "/repo"; "five"; "1"; "2"].
Proof.
  apply (@main_ignores_extra_arguments Demo.lib).
  vm_compute. discriminate.
Defined.

Lemma main_blank_pattern_witness :
  @main Demo.lib Demo.world_without_rg ["repo_slice.py"; "/repo"; "  "]
  = ([Printed "No matches."], Ok 0).
Proof.
  apply (@main_blank_pattern Demo.lib Demo.world_without_rg
           ["repo_slice.py"; "/repo"; "  "] 8 60).
  - vm_compute. discriminate.
  - reflexivity.
  - reflexivity.
  - reflexivity.
  - reflexivity.
Defined.

Lemma main_tool_failure_witness :
  let w := Demo.world "" ("regex parse error" ++ nl) in
  let cmd := @rg_command Demo.lib "/repo" "(" (@DEFAULT_EXCLUDE_GLOBS) in
  @main Demo.lib w ["repo_slice.py"; "/repo"; "("] =
    (Spawned cmd
       :: (if is_blank (or_empty (Some ("regex parse error" ++ nl)%string)) then []
           else [Printed (strip (or_empty (Some ("regex parse error" ++ nl)%string)))])
       ++ [Printed "No matches."],
     Ok 0).
Proof.
  intros w cmd.
  apply (@main_tool_failure Demo.lib w ["repo_slice.py"; "/repo"; "("] 8 60
           {| stdout := Some ""; stderr := Some ("regex parse error" ++ nl)%string |}).
  - vm_compute. discriminate.
  - reflexivity.
  - reflexivity.
  - reflexivity.
  - reflexivity.
  - reflexivity.
  - reflexivity.
Defined.

(* ================================================================== *)
(** ** Two more edges: a bad line after matches, a radius past the file *)
(* ================================================================== *)

Section MoreEdges.
Context `{py : PyLib}.

Lemma decode_lines_aborts (max_hits : Z) (before after : list string)
    (ln : string) (e : exn) :
  decode_line ln = Raise e ->
  (forall l e', In l before -> decode_line l <> Raise e') ->
  forall hits,
    len hits + len (flat_map line_yield before) < max_hits ->
    decode_lines max_hits (before ++ ln :: after) hits = Raise e.
Proof.
  intros Hbad. induction before as [|l before IH]; intros Hok hits Hlt; simpl.
  - now rewrite Hbad.
  - assert (Hrest : forall l' e', In l' before -> decode_line l' <> Raise e')
      by (intros l' e' Hl; apply Hok; now right).
    simpl in Hlt. unfold line_yield at 1 in Hlt.
    destruct (decode_line l) as [[m|]|e'] eqn:Hl.
    + rewrite len_app in Hlt. change (len [m]) with 1 in Hlt.
      pose proof (len_nonneg (flat_map line_yield before)) as Hnn.
      destruct (Z.geb_spec (len (hits ++ [m])) max_hits) as [Hge|_].
      * rewrite len_app in Hge. change (len [m]) with 1 in Hge. lia.
      * apply IH; [exact Hrest|]. rewrite len_app. change (len [m]) with 1. lia.
    + apply IH; [exact Hrest | exact Hlt].
    + exfalso. apply (Hok l e'); [now left | exact Hl].
Qed.

(** X21.  A line [json.loads] fails on raises the error of [json.loads]
    ([JSONDecodeError] for a line that is not JSON), and a line
    that is JSON but not an object raises [AttributeError]; when the
    lines before it raise nothing and hold fewer matches than the cap
    allows, the error leaves the loop and the matches decoded so far are
    lost. *)
Theorem decoder_aborts_on_bad_line (max_hits : Z) (before after : list string)
    (ln : string) (e : exn) (hits : list rg_match) :
  is_blank ln = false ->
  (exists f, json_loads ln = Failed f /\ e = json_exn f) \/
  (exists v, json_loads ln = Loaded v /\ is_object v = false /\ e = AttributeError) ->
  (forall l e', In l before -> decode_line l <> Raise e') ->
  len hits + len (flat_map line_yield before) < max_hits ->
  decode_line ln = Raise e /\
  decode_lines max_hits (before ++ ln :: after) hits = Raise e.
Proof.
  intros Hb Hbad Hok Hlt.
  assert (E : decode_line ln = Raise e).
  { destruct Hbad as [(f & Hl & ->) | (v & Hl & Hv & ->)].
    - now apply decode_line_malformed.
    - unfold decode_line. rewrite strips_to_empty_blank, Hb, Hl.
      now destruct v. }
  split; [exact E|]. now apply decode_lines_aborts.
Qed.

Variable w : World.

(** X22.  A radius that reaches both ends of the file shows the whole
    file: the window is the text [<path>:<line> (lines 1-<N>)], with [N]
    the number of lines of the file in decimal, a newline, and every line
    of the file joined by newlines, however much larger the radius is. *)
Theorem slice_window_covers_file (p : Path) (text : string) (L : intlike) (R : Z) :
  fs w p = Some (File text) ->
  splitlines text <> [] ->
  1 <= int_val L ->
  int_val L - 1 <= R ->
  len (splitlines text) <= int_val L + R ->
  slice_window w p L R =
    Ok (str_of_Path p ++ ":" ++ str_of_intlike L ++ " (lines 1-"
        ++ str_of_int (len (splitlines text)) ++ ")" ++ nl
        ++ String.concat nl (splitlines text))%string /\
  int_of_text (str_of_int (len (splitlines text))) = Some (len (splitlines text)).
Proof.
  intros Hfs Hne HL HR1 HR2.
  split; [|apply str_of_int_reads_back].
  rewrite (slice_window_reads w p text L R Hfs Hne HL).
  rewrite (Z.max_r (int_val L - 1 - R) 0) by lia.
  rewrite (Z.min_r (int_val L - 1 + R + 1) (len (splitlines text))) by lia.
  assert (E : slice (splitlines text) 0 (len (splitlines text)) = splitlines text).
  { rewrite slice_inside by (pose proof (len_nonneg (splitlines text)); lia).
    pose proof (len_nonneg (splitlines text)).
    rewrite Z.min_l by lia. rewrite Z.sub_0_r. simpl.
    unfold len. rewrite Nat2Z.id. apply firstn_all. }
  rewrite E, window_text. reflexivity.
Qed.

End MoreEdges.

Lemma decoder_aborts_on_bad_line_witness :
  let m5 := Demo.match_record "/repo/a.txt" "5" in
  @decode_line Demo.lib "[1, 2]" = Raise AttributeError /\
  @decode_lines Demo.lib 8 ([m5] ++ "[1, 2]" :: [m5]) [] = Raise AttributeError.
Proof.
  intros m5.
  apply (@decoder_aborts_on_bad_line Demo.lib 8 [m5] [m5] "[1, 2]" AttributeError []).
  - reflexivity.
  - right. exists (PList [PInt 1; PInt 2]).
    split; [vm_compute; reflexivity|]. split; reflexivity.
  - intros l e' [<- | []]. vm_compute. discriminate.
  - vm_compute. reflexivity.
Defined.

Lemma slice_window_covers_file_witness :
  @slice_window Demo.lib (Demo.world "" "") "/repo/a.txt" (Int 1) 500 =
    Ok "/repo/a.txt:1 (lines 1-10)
one
two
three
four
five
six
seven
eight
nine
ten" /\
  int_of_text "10" = Some 10.
Proof.
  apply (@slice_window_covers_file Demo.lib (Demo.world "" "") "/repo/a.txt"
           Demo.a_txt (Int 1) 500).
  - reflexivity.
  - vm_compute. discriminate.
  - simpl. lia.
  - simpl. lia.
  - vm_compute. discriminate.
Defined.

